(** * The projector views of OpenSlides' core app

    A shallow embedding of [ProjectorViewSet] from
    [openslides/core/views.py]: the element operations ([prune],
    [clear], [update_elements], [deactivate_elements], [project]) and
    [destroy], as functions on an explicit database state, followed by
    the properties the specification states about them. *)

From Stdlib Require Import ZArith QArith Ascii.
From stdpp Require Import gmap strings list fin_maps pretty.

Local Close Scope Q_scope.
Local Open Scope Z_scope.
Local Open Scope string_scope.

Set Warnings "-register-all".

(** ** Request data

    [request.data] is parsed JSON.  Python's [int] is unbounded, hence
    [Z]; a [float] is a finite double and is held as the rational it
    denotes; a [dict] has string keys and is held as a finite map.  The
    order in which Python keeps the keys is not part of it: the loops
    of the views over a dict raise the same error at whichever key
    they stop, and what they write does not depend on the order. *)

Inductive json :=
  | JNull
  | JBool (b : bool)
  | JInt (n : Z)
  | JFloat (q : Q)
  | JStr (s : string)
  | JList (l : list json)
  | JDict (d : gmap string json).

(** A projector element is a dict: [prune_elements] and [project] check
    [isinstance(element, dict)], and [update] keeps it one. *)
Abbreviation Element := (gmap string json).

Module Py.

(** [d.get(key)]: the value, or [None] when the key is absent. *)
Definition get (d : Element) (key : string) : json :=
  default JNull (d !! key).

(** [d.get(key, dflt)]. *)
Definition get_default (d : Element) (key : string) (dflt : json) : json :=
  default dflt (d !! key).

(** [x is None]. *)
Definition is_None (x : json) : bool :=
  match x with JNull => true | _ => false end.

(** [isinstance(x, int)] together with the value: [bool] is a subclass
    of [int], [True] being 1 and [False] 0. *)
Definition as_int (x : json) : option Z :=
  match x with
  | JInt n => Some n
  | JBool b => Some (Z.b2z b)
  | _ => None
  end.

(** The truth value of [x], as tested by [if x:]. *)
Definition truthy (x : json) : bool :=
  match x with
  | JNull => false
  | JBool b => b
  | JInt n => negb (n =? 0)%Z
  | JFloat q => negb (Qeq_bool q (0 # 1))
  | JStr s => match s with EmptyString => false | _ => true end
  | JList l => match l with [] => false | _ => true end
  | JDict d => match map_to_list d with [] => false | _ => true end
  end.

(** Whether [hash(x)] succeeds: lists and dicts are unhashable. *)
Definition hashable (x : json) : bool :=
  match x with JList _ | JDict _ => false | _ => true end.

(** [d1.update(d2)]: the fields of [d2] overwrite, the others stay. *)
Definition update (d1 d2 : Element) : Element := d2 ∪ d1.

(** The one-character string holding a double quote. *)
Definition dquote : string := String (ascii_of_nat 34) EmptyString.

End Py.

(** ** What the views call and this file does not define

    The views lean on Python's standard library and on the serializer of
    the app; both are taken as an interface. *)
Class Externals := {
  (** [str(x)] for a float, a list or a dict. *)
  py_repr : json → string;
  (** [uuid.UUID(hex=s)]: [true] when it returns, [false] when it raises
      [ValueError]. *)
  UUID_hex : string → bool;
  (** [uuid.uuid4().hex]: the value of the [n]-th call. *)
  uuid4_hex : nat → string;
  (** [serializer.is_valid(raise_exception=True)] on
      [data={"config": c}]: [None] when valid, else the error detail. *)
  serializer_errors : gmap string Element → option string
}.

(** ** The database *)

Record Projector := mkProjector {
  config : gmap string Element;
  scale : Z;
  scroll : Z;
  width : Z;
  height : Z;
  blank : bool
}.

Record ProjectionDefault := mkProjectionDefault {
  name : string;
  display_name : string;
  projector_id : Z
}.

(** What [save()], [delete()] and the config store pass on to
    [inform_changed_data] and [inform_deleted_data]. *)
Inductive autoupdate :=
  | ChangedProjector (pk : Z)
  | ChangedProjectionDefault (pk : Z)
  | ChangedConfig (key : string)
  | DeletedProjector (pk : Z).

Record World := mkWorld {
  projectors : gmap Z Projector;
  projectiondefaults : gmap Z ProjectionDefault;
  projector_broadcast : Z;
  uuid4_calls : nat;
  informed : list autoupdate
}.

Definition set_config (c : gmap string Element) (p : Projector) : Projector :=
  mkProjector c (scale p) (scroll p) (width p) (height p) (blank p).

Definition set_scroll (n : Z) (p : Projector) : Projector :=
  mkProjector (config p) (scale p) n (width p) (height p) (blank p).

Definition set_projector_id (n : Z) (d : ProjectionDefault) : ProjectionDefault :=
  mkProjectionDefault (name d) (display_name d) n.

(** ** Exceptions and the request monad

    A view either returns or raises; what it wrote to the database
    before raising stays written. *)

Inductive exception :=
  | ValidationError (detail : string)
  | Http404
  | DoesNotExist
  | TypeError.

Inductive result (A : Type) :=
  | Return (a : A)
  | Raise (e : exception).
Arguments Return {A} a.
Arguments Raise {A} e.

Definition M (A : Type) : Type := World → result A * World.

#[export] Instance M_ret : MRet M := λ A a w, (Return a, w).

#[export] Instance M_bind : MBind M := λ A B f m w,
  match m w with
  | (Return a, w') => f a w'
  | (Raise e, w') => (Raise e, w')
  end.

Definition raise {A} (e : exception) : M A := λ w, (Raise e, w).

Definition read : M World := λ w, (Return w, w).

Definition modify (f : World → World) : M unit := λ w, (Return tt, f w).

(** [for x in xs: body(x)]. *)
Fixpoint for_each {A} (xs : list A) (body : A → M unit) : M unit :=
  match xs with
  | [] => mret tt
  | x :: xs' => body x ≫= λ _, for_each xs' body
  end.

(** A loop that threads a local variable through its iterations. *)
Fixpoint for_fold {A S} (xs : list A) (body : S → A → M S) (s : S) : M S :=
  match xs with
  | [] => mret s
  | x :: xs' => body s x ≫= for_fold xs' body
  end.

(** [[body(x) for x in xs]], stopping at the first exception. *)
Fixpoint for_map {A B} (xs : list A) (body : A → M B) : M (list B) :=
  match xs with
  | [] => mret []
  | x :: xs' => y ← body x; ys ← for_map xs' body; mret (y :: ys)
  end.

(** ** The views *)

Section views.
Context `{Externals}.

(** [str(x)], which is also what an f-string prints for [{x}]. *)
Definition str (x : json) : string :=
  match x with
  | JNull => "None"
  | JBool true => "True"
  | JBool false => "False"
  | JInt n => pretty n
  | JStr s => s
  | _ => py_repr x
  end.

(** [for i in x]: a list yields its items, a dict its keys, a string
    its characters; anything else is not iterable. *)
Definition iterate (x : json) : option (list json) :=
  match x with
  | JList l => Some l
  | JDict d => Some ((λ kv, JStr kv.1) <$> map_to_list d)
  | JStr s => Some ((λ c, JStr (String c EmptyString)) <$> String.list_ascii_of_string s)
  | _ => None
  end.

(** [self.get_object()]: the projector of the URL, or a 404. *)
Definition get_object (pk : Z) : M Projector :=
  w ← read;
  match projectors w !! pk with
  | Some projector => mret projector
  | None => raise Http404
  end.

(** [projector.save()]: the row is written and autoupdate informed
    (the one view that does not want that, [control_view], passes
    [skip_autoupdate=True]). *)
Definition save (pk : Z) (projector : Projector) : M unit :=
  modify (λ w, mkWorld (<[pk := projector]> (projectors w))
                       (projectiondefaults w) (projector_broadcast w)
                       (uuid4_calls w)
                       (informed w ++ [ChangedProjector pk])).

(** [uuid.uuid4().hex]. *)
Definition uuid4 : M string := λ w,
  (Return (uuid4_hex (uuid4_calls w)),
   mkWorld (projectors w) (projectiondefaults w) (projector_broadcast w)
           (S (uuid4_calls w)) (informed w)).

(** The three serializer lines every element view ends with:
    [get_serializer(projector, data={"config": projector_config})],
    [is_valid(raise_exception=True)], [save()].  The serializer writes
    into the instance it was given, so what it returns is that
    instance. *)
Definition serializer_save (pk : Z) (projector : Projector)
    (projector_config : gmap string Element) : M Projector :=
  match serializer_errors projector_config with
  | Some detail => raise (ValidationError detail)
  | None =>
      let projector := set_config projector_config projector in
      save pk projector;; mret projector
  end.

(** [value.get("stable")] as a condition. *)
Definition stable (value : Element) : bool :=
  Py.truthy (Py.get value "stable").

(** The loop that opens both [prune] and [clear]:
    [for key, value in projector.config.items():
       if value.get("stable"): projector_config[key] = value]. *)
Definition keep_stable (c : gmap string Element) : gmap string Element :=
  map_fold (λ key value projector_config,
              if stable value then <[key := value]> projector_config
              else projector_config) ∅ c.

Definition prune (pk : Z) (projector : Projector) (elements : list Element)
    : M Projector :=
  let projector_config := keep_stable (config projector) in
  projector_config ←
    for_fold elements
      (λ projector_config element,
         key ← uuid4; mret (<[key := element]> projector_config))
      projector_config;
  projector ← serializer_save pk projector projector_config;
  (* reset scroll level *)
  if bool_decide (scroll projector ≠ 0) then
    let projector := set_scroll 0 projector in
    save pk projector;; mret projector
  else mret projector.

Definition clear (pk : Z) (projector : Projector) : M Projector :=
  let projector_config := keep_stable (config projector) in
  serializer_save pk projector projector_config.

Definition name_is_missing : exception :=
  ValidationError "Invalid projector element. Name is missing.".

Definition prune_elements (pk : Z) (data : json) : M Projector :=
  match data with
  | JList elements =>
      projector ← get_object pk;
      elements ←
        for_map elements
          (λ element,
             match element with
             | JDict element =>
                 if Py.is_None (Py.get element "name")
                 then raise name_is_missing
                 else mret element
             | _ => raise (ValidationError "All elements have to be dicts.")
             end);
      prune pk projector elements
  | _ => raise (ValidationError "Data must be a list.")
  end.

Definition clear_elements (pk : Z) : M Projector :=
  projector ← get_object pk;
  clear pk projector.

Definition update_elements (pk : Z) (data : json) : M Projector :=
  match data with
  | JDict data =>
      let error := ValidationError
        "Data must be a dictionary with UUIDs as keys and dictionaries as values." in
      items ←
        for_map (map_to_list data)
          (λ '(key, value),
             if UUID_hex (str (JStr key)) then
               match value with
               | JDict value => mret (key, value)
               | _ => raise error
               end
             else raise error);
      projector_instance ← get_object pk;
      projector_config ←
        for_fold items
          (λ projector_config '(key, value),
             match projector_config !! key with
             | Some element =>
                 mret (<[key := Py.update element value]> projector_config)
             | None =>
                 raise (ValidationError "Invalid projector element. Wrong UUID.")
             end)
          (config projector_instance);
      serializer_save pk projector_instance projector_config
  | _ => raise (ValidationError "Data must be a dictionary.")
  end.

(** [del projector_config[key]] under [try ... except KeyError]: the
    keys of the config are strings, so no other hashable value is
    among them; an unhashable one raises [TypeError], which the
    [except] clause does not catch. *)
Definition del (projector_config : gmap string Element) (key : json)
    : M (gmap string Element) :=
  match key with
  | JStr k =>
      match projector_config !! k with
      | Some _ => mret (delete k projector_config)
      | None => raise (ValidationError "Invalid UUID.")
      end
  | _ =>
      if Py.hashable key then raise (ValidationError "Invalid UUID.")
      else raise TypeError
  end.

Definition deactivate_elements (pk : Z) (data : json) : M Projector :=
  let error := ValidationError "Data must be a list of hex UUIDs." in
  match data with
  | JList data =>
      for_each data
        (λ item, if UUID_hex (str item) then mret tt else raise error);;
      projector_instance ← get_object pk;
      projector_config ← for_fold data del (config projector_instance);
      serializer_save pk projector_instance projector_config
  | _ => raise error
  end.

(** The first step of [project]:
    [for projector in Projector.objects.filter(pk__in=clear_projector_ids):
       self.clear(projector)].
    The queryset is read once, when the loop starts; it holds every
    existing projector whose key is among the ids, each once. *)
Definition clear_all (clear_projector_ids : list Z) : M unit :=
  w ← read;
  for_each
    (filter (λ row, row.1 ∈ clear_projector_ids) (map_to_list (projectors w)))
    (λ '(pk, projector), clear pk projector;; mret tt).

(** The validation of [request.data["prune"]] in [project]; it returns
    [prune_projector_id] and [prune_element]. *)
Definition validate_prune (prune : json) : M (Z * Element) :=
  match prune with
  | JDict prune =>
      let prune_projector_id := Py.get prune "id" in
      match Py.as_int prune_projector_id with
      | Some id =>
          (* Get the projector after all clear operations, but check,
             if it exist. *)
          w ← read;
          if bool_decide (is_Some (projectors w !! id)) then
            match Py.get_default prune "element" (JDict ∅) with
            | JDict prune_element =>
                if Py.is_None (Py.get prune_element "name")
                then raise name_is_missing
                else mret (id, prune_element)
            | _ =>
                raise (ValidationError
                         "Prune element has to be a dict or not given.")
            end
          else
            raise (ValidationError
                     ("The projector with id " +:+ Py.dquote +:+
                      str prune_projector_id +:+ Py.dquote +:+
                      " does not exist"))
      | None =>
          raise (ValidationError "The prune projector id has to be int.")
      end
  | _ => raise (ValidationError "Prune has to be an object.")
  end.

Definition project (data : json) : M unit :=
  match data with
  | JDict data =>
      (* Get projector ids to clear *)
      clear_projector_ids ←
        match iterate (Py.get_default data "clear_ids" (JList [])) with
        | Some ids =>
            for_map ids
              (λ id,
                 match Py.as_int id with
                 | Some n => mret n
                 | None =>
                     raise (ValidationError
                              ("The id " +:+ Py.dquote +:+ str id +:+
                               Py.dquote +:+ " has to be int."))
                 end)
        | None => raise TypeError
        end;
      (* Get the projector id and validate element to prune. *)
      let prune_data := Py.get data "prune" in
      checked ←
        (if Py.is_None prune_data then mret None
         else p ← validate_prune prune_data; mret (Some p));
      (* First step: Clear all given projectors *)
      clear_all clear_projector_ids;;
      (* Second step: optionally prune *)
      match checked with
      | Some (prune_projector_id, prune_element) =>
          w ← read;
          match projectors w !! prune_projector_id with
          | Some prune_projector =>
              prune prune_projector_id prune_projector [prune_element];;
              mret tt
          | None => raise DoesNotExist
          end
      | None => mret tt
      end
  | _ => raise (ValidationError "The data has to be a dict.")
  end.

(** [projection_default.save()]. *)
Definition save_projection_default (pk : Z)
    (projection_default : ProjectionDefault) : M unit :=
  modify (λ w, mkWorld (projectors w)
                       (<[pk := projection_default]> (projectiondefaults w))
                       (projector_broadcast w) (uuid4_calls w)
                       (informed w ++ [ChangedProjectionDefault pk])).

(** [config["projector_broadcast"] = value]. *)
Definition set_projector_broadcast (value : Z) : M unit :=
  modify (λ w, mkWorld (projectors w) (projectiondefaults w) value
                       (uuid4_calls w)
                       (informed w ++ [ChangedConfig "projector_broadcast"])).

(** [super().destroy()], the generic DELETE of the REST framework: the
    row of the projector is removed and its deletion announced.  The
    foreign key of a projection default to its projector is declared
    with [on_delete=CASCADE], so the database removes with the
    projector every projection default that still refers to it. *)
Definition super_destroy (pk : Z) : M unit :=
  _ ← get_object pk;
  modify (λ w, mkWorld (delete pk (projectors w))
                       (filter (λ row, projector_id row.2 ≠ pk)
                               (projectiondefaults w))
                       (projector_broadcast w) (uuid4_calls w)
                       (informed w ++ [DeletedProjector pk])).

(** The loop of [destroy] over [ProjectionDefault.objects.all()]. *)
Definition reassign_projection_defaults (id : Z) : M unit :=
  w ← read;
  for_each (map_to_list (projectiondefaults w))
    (λ '(pk, projection_default),
       if bool_decide (projector_id projection_default = id) then
         save_projection_default pk (set_projector_id 1 projection_default)
       else mret tt).

Definition destroy (pk : Z) : M unit :=
  _ ← get_object pk;
  reassign_projection_defaults pk;;
  w ← read;
  (if bool_decide (projector_broadcast w = pk)
   then set_projector_broadcast 0 else mret tt);;
  super_destroy pk.

End views.

(** ** An instance of the interface

    [uuid.UUID(hex=s)] and [int(s, 16)] after CPython's [uuid.py] and
    [longobject.c], for strings of code points below 256. *)
Module CPython.

Definition code (c : ascii) : nat := nat_of_ascii c.

Definition between (lo hi : nat) (c : ascii) : bool :=
  (lo <=? code c)%nat && (code c <=? hi)%nat.

(** White space as [int] skips it around a number. *)
Definition isspace (c : ascii) : bool :=
  between 9 13 c || between 32 32 c || between 133 133 c
  || between 160 160 c.

(** A digit of base 16. *)
Definition isxdigit (c : ascii) : bool :=
  between 48 57 c || between 97 102 c || between 65 70 c.

Definition char (n : nat) (c : ascii) : bool := between n n c.

(** [s.startswith(old)]. *)
Fixpoint startswith (s old : string) {struct old} : bool :=
  match old with
  | EmptyString => true
  | String a old' =>
      match s with
      | String b s' => Ascii.eqb a b && startswith s' old'
      | EmptyString => false
      end
  end.

(** [s.replace(old, "")] for a non-empty [old]: [skip] counts the
    characters of a match that are still to be dropped. *)
Fixpoint replace_go (old : string) (skip : nat) (s : string) : string :=
  match s with
  | EmptyString => EmptyString
  | String c s' =>
      match skip with
      | S n => replace_go old n s'
      | O =>
          if startswith s old
          then replace_go old (String.length old - 1) s'
          else String c (replace_go old 0 s')
      end
  end.

Definition replace (old : string) (s : string) : string :=
  replace_go old 0 s.

Fixpoint lstrip (p : ascii → bool) (s : string) : string :=
  match s with
  | EmptyString => EmptyString
  | String c s' => if p c then lstrip p s' else s
  end.

Fixpoint rstrip (p : ascii → bool) (s : string) : string :=
  match s with
  | EmptyString => EmptyString
  | String c s' =>
      match rstrip p s' with
      | EmptyString => if p c then EmptyString else String c EmptyString
      | rest => String c rest
      end
  end.

(** [s.strip(chars)]. *)
Definition strip (p : ascii → bool) (s : string) : string :=
  rstrip p (lstrip p s).

(** The digits of [int(s, 16)]: underscores only between digits, at
    least one digit, then nothing but white space. *)
Fixpoint digits (seen prev_underscore : bool) (s : string) : bool :=
  match s with
  | EmptyString => seen && negb prev_underscore
  | String c s' =>
      if isxdigit c then digits true false s'
      else if char 95 c then
        seen && negb prev_underscore && digits seen true s'
      else
        seen && negb prev_underscore
        && match lstrip isspace s with EmptyString => true | _ => false end
  end.

(** Whether [int(s, 16)] returns: white space, a sign, [0x] and one
    underscore after it may come before the digits. *)
Definition int16 (s : string) : bool :=
  let s := lstrip isspace s in
  let s :=
    match s with
    | String c s' => if char 43 c || char 45 c then s' else s
    | EmptyString => s
    end in
  let s :=
    match s with
    | String c0 (String c1 s') =>
        if char 48 c0 && (char 120 c1 || char 88 c1) then
          match s' with
          | String c2 s'' => if char 95 c2 then s'' else s'
          | EmptyString => s'
          end
        else s
    | _ => s
    end in
  digits false false s.

Definition brace (c : ascii) : bool := char 123 c || char 125 c.

(** [uuid.UUID(hex=s)]: the prefixes [urn:] and [uuid:], braces at
    both ends and hyphens are dropped; 32 characters must be left and
    they must read as a number of base 16 (which is then below
    [2^128]). *)
Definition UUID (hex : string) : bool :=
  let hex := replace "uuid:" (replace "urn:" hex) in
  let hex := replace "-" (strip brace hex) in
  (String.length hex =? 32)%nat && int16 hex.

(** Every character of [s] satisfies [p]. *)
Fixpoint all (p : ascii → bool) (s : string) : bool :=
  match s with
  | EmptyString => true
  | String c s' => p c && all p s'
  end.

(** The ways of writing the 32 digits [a b c d e] of a UUID, given in
    groups of 8, 4, 4, 4 and 12: bare, with hyphens, in braces and as a
    URN. *)
Definition bare (a b c d e : string) : string := a +:+ b +:+ c +:+ d +:+ e.

Definition hyphenated (a b c d e : string) : string :=
  a +:+ "-" +:+ b +:+ "-" +:+ c +:+ "-" +:+ d +:+ "-" +:+ e.

Definition braced (a b c d e : string) : string :=
  "{" +:+ hyphenated a b c d e +:+ "}".

Definition urn (a b c d e : string) : string :=
  "urn:uuid:" +:+ hyphenated a b c d e.

Definition forms (a b c d e : string) : list string :=
  [bare a b c d e; hyphenated a b c d e; braced a b c d e; urn a b c d e].

(** [s] is [n] digits of base 16. *)
Definition xdigits (n : nat) (s : string) : Prop :=
  String.length s = n ∧ all isxdigit s = true.

(** A character of a UUID written with hyphens and braces. *)
Definition written (c : ascii) : bool := isxdigit c || char 45 c || brace c.

End CPython.

(** The 32 digits of a version 4 UUID whose random bits spell [n]. *)
Definition uuid4_of_nat (n : nat) : string :=
  let digits := pretty n in
  "000000000000" +:+ "4000" +:+ "8" +:+
  String.string_of_list_ascii
    (replicate (15 - String.length digits) ("0"%char)) +:+ digits.

(** The instance the examples run on: CPython's parser, a counter in
    place of the random source and a serializer that accepts every
    config.  The examples print no float, list or dict. *)
Definition example_externals : Externals := {|
  py_repr := λ _, "...";
  UUID_hex := CPython.UUID;
  uuid4_hex := uuid4_of_nat;
  serializer_errors := λ _, None
|}.

(** ** Vocabulary of the statements *)

Definition result_map {A B} (f : A → B) (r : result A) : result B :=
  match r with
  | Return a => Return (f a)
  | Raise e => Raise e
  end.

#[export] Instance result_fmap : FMap result := @result_map.

(** A computation that, when it raises, has written nothing. *)
Definition fails_clean {A} (m : M A) : Prop :=
  ∀ w e w', m w = (Raise e, w') → w' = w.

(** What the loop of [destroy] makes of one projection default. *)
Definition reassigned (id : Z) (d : ProjectionDefault) : ProjectionDefault :=
  if bool_decide (projector_id d = id) then set_projector_id 1 d else d.

Section vocabulary.
Context `{Externals}.

(** The keys that [n] calls of [uuid4] return in the world [w]. *)
Definition drawn (w : World) (n : nat) : list string :=
  (λ i, uuid4_hex (uuid4_calls w + i)) <$> seq 0 n.

Definition after_draws (n : nat) (w : World) : World :=
  mkWorld (projectors w) (projectiondefaults w) (projector_broadcast w)
          (uuid4_calls w + n) (informed w).

(** The entries of a config whose element is stable. *)
Definition stable_entries (c : gmap string Element) : gmap string Element :=
  filter (λ kv, stable kv.2 = true) c.

(** A key of a request that the config does not hold. *)
Definition absent (c : gmap string Element) (key : string) : Prop :=
  c !! key = None.

(** The [element] of a [prune] object has no name that is not
    [None]: the element is not given, is no dict, or is a dict without
    a name. *)
Definition lacks_name (prune_data : gmap string json) : Prop :=
  match Py.get_default prune_data "element" (JDict ∅) with
  | JDict prune_element => Py.is_None (Py.get prune_element "name") = true
  | _ => True
  end.

(** The detail [project] gives when the projector to prune is not in
    the database. *)
Definition does_not_exist (prune_projector_id : json) : exception :=
  ValidationError
    ("The projector with id " +:+ Py.dquote +:+ str prune_projector_id
     +:+ Py.dquote +:+ " does not exist").

(** The body of the loop of [project] over [clear_ids]. *)
Definition check_id (id : json) : M Z :=
  match Py.as_int id with
  | Some n => mret n
  | None =>
      raise (ValidationError
               ("The id " +:+ Py.dquote +:+ str id +:+
                Py.dquote +:+ " has to be int."))
  end.

(** What [update_elements] makes of a config: every element whose key
    the request names is updated with the partial element given for
    it. *)
Definition merge_updates (data : gmap string json)
    (c : gmap string Element) : gmap string Element :=
  map_imap
    (λ key element,
       Some match data !! key with
            | Some (JDict partial) => Py.update element partial
            | _ => element
            end) c.

(** The two details of failed key checks. *)
Definition wrong_uuid : exception :=
  ValidationError "Invalid projector element. Wrong UUID.".

Definition invalid_uuid : exception := ValidationError "Invalid UUID.".

Definition hex_uuids_error : exception :=
  ValidationError "Data must be a list of hex UUIDs.".

(** The dict a value of an [update_elements] request is. *)
Definition as_dict (value : json) : Element :=
  match value with JDict d => d | _ => ∅ end.

(** The body of the second loop of [update_elements]. *)
Definition update_step (projector_config : gmap string Element)
    (item : string * Element) : M (gmap string Element) :=
  let '(key, value) := item in
  match projector_config !! key with
  | Some element =>
      mret (<[key := Py.update element value]> projector_config)
  | None => raise wrong_uuid
  end.

End vocabulary.

(** ** A small database to run the views on *)
Module Example.

Definition countdown : Element :=
  {[ "name" := JStr "core/countdown"; "stable" := JBool true ]}.

Definition slide : Element :=
  {[ "name" := JStr "motion/slide"; "id" := JInt 7 ]}.

Definition a : Element := {[ "name" := JStr "a"; "x" := JInt 1 ]}.

Definition key1 : string := "191c0878cdc04abfbd64f3177a21891a".
Definition key2 : string := "0f5a3c1e9b7d4e2f8a6c4b2d0e1f3a5c".
Definition key3 : string := "0123456789abcdef0123456789abcdef".

(** A key no projector holds, written with hyphens. *)
Definition key4 : string := "7d44c1f2-53a0-4b7e-9c11-0a2b3c4d5e6f".

Definition projector1 : Projector :=
  mkProjector {[ key1 := countdown; key2 := slide ]} 0 5 1024 768 false.

Definition projector2 : Projector :=
  mkProjector {[ key3 := a ]} 0 0 1024 768 false.

Definition world : World :=
  mkWorld
    {[ 1 := projector1; 2 := projector2 ]}
    {[ 1 := mkProjectionDefault "agenda_all_items" "Agenda" 1;
       2 := mkProjectionDefault "motions" "Motions" 2;
       3 := mkProjectionDefault "users" "Participants" 2 ]}
    2 0 [].

(** A request to clear projector 1 and to show on projector 3, which
    does not exist, an element without a name. *)
Definition nameless_prune : gmap string json :=
  {[ "id" := JInt 3; "element" := JDict ∅ ]}.

Definition nameless_request : gmap string json :=
  {[ "clear_ids" := JList [JInt 1]; "prune" := JDict nameless_prune ]}.

(** A request to clear projector 1 without showing anything. *)
Definition clear_request : gmap string json :=
  {[ "clear_ids" := JList (JInt <$> [1]) ]}.

(** The update of the specification: [{x: 2, y: 3}] for the element
    [{name: "a", x: 1}]. *)
Definition partial : Element := {[ "x" := JInt 2; "y" := JInt 3 ]}.

Definition update_request : gmap string json := {[ key3 := JDict partial ]}.

End Example.

(** ** The other views of the projector *)

Definition set_scale (n : Z) (p : Projector) : Projector :=
  mkProjector (config p) n (scroll p) (width p) (height p) (blank p).

Definition set_width (n : Z) (p : Projector) : Projector :=
  mkProjector (config p) (scale p) (scroll p) n (height p) (blank p).

Definition set_height (n : Z) (p : Projector) : Projector :=
  mkProjector (config p) (scale p) (scroll p) (width p) n (blank p).

Definition set_blank (b : bool) (p : Projector) : Projector :=
  mkProjector (config p) (scale p) (scroll p) (width p) (height p) b.

(** [activate_elements] calls [element.get] on whatever the list holds;
    on anything but a dict that raises [AttributeError], which no view
    catches.  So the view answers as the others do, or ends so. *)
Inductive outcome (A : Type) :=
  | Answer (r : result A)
  | AttributeError.
Arguments Answer {A} r.
Arguments AttributeError {A}.

Definition O (A : Type) : Type := World → outcome A * World.

#[export] Instance O_ret : MRet O := λ A a w, (Answer (Return a), w).

#[export] Instance O_bind : MBind O := λ A B f m w,
  match m w with
  | (Answer (Return a), w') => f a w'
  | (Answer (Raise e), w') => (Answer (Raise e), w')
  | (AttributeError, w') => (AttributeError, w')
  end.

(** A computation of the other views, run inside this one. *)
Definition answer {A} (m : M A) : O A := λ w,
  let '(r, w') := m w in (Answer r, w').

Definition attribute_error {A} : O A := λ w, (AttributeError, w).

(** A field as [save()] gets it: a value, or [F(field) + n], which the
    database works out on the row it holds. *)
Inductive expression :=
  | Value (n : Z)
  | F_plus (n : Z).

Definition resolve (e : expression) (stored : Z) : Z :=
  match e with
  | Value n => n
  | F_plus n => stored + n
  end.

Section more_views.
Context `{Externals}.

(** The loop of [activate_elements]. *)
Fixpoint activate_loop (elements : list json)
    (projector_config : gmap string Element) : O (gmap string Element) :=
  match elements with
  | [] => mret projector_config
  | element :: elements' =>
      match element with
      | JDict element =>
          if Py.is_None (Py.get element "name")
          then answer (raise name_is_missing)
          else
            key ← answer uuid4;
            activate_loop elements' (<[key := element]> projector_config)
      | _ => attribute_error
      end
  end.

Definition activate_elements (pk : Z) (data : json) : O Projector :=
  match data with
  | JList data =>
      projector_instance ← answer (get_object pk);
      projector_config ← activate_loop data (config projector_instance);
      answer (serializer_save pk projector_instance projector_config)
  | _ => answer (raise (ValidationError "Data must be a list."))
  end.

Definition set_resolution (pk : Z) (data : json) : M string :=
  match data with
  | JDict data =>
      let width := Py.get data "width" in
      let height := Py.get data "height" in
      if Py.is_None width || Py.is_None height then
        raise (ValidationError "A width and a height have to be given.")
      else
        match Py.as_int width, Py.as_int height with
        | Some w, Some h =>
            if ((w <? 800) || (3840 <? w) || (h <? 340) || (2880 <? h))%Z then
              raise (ValidationError
                       "The Resolution have to be between 800x340 and 3840x2880.")
            else
              projector_instance ← get_object pk;
              save pk (set_height h (set_width w projector_instance));;
              mret ("Changing resolution to " +:+ str width +:+ "x" +:+
                    str height +:+ " was successful.")
        | _, _ => raise (ValidationError "Data has to be integers.")
        end
  | _ => raise (ValidationError "Data must be a dictionary.")
  end.

(** [x in ("scale", "scroll")] and [x in ("up", "down", "reset")]: the
    string, when it is one of them. *)
Definition one_of (choices : list string) (x : json) : option string :=
  match x with
  | JStr s => if bool_decide (s ∈ choices) then Some s else None
  | _ => None
  end.

(** [s.capitalize()] for the two actions. *)
Definition capitalize (action : string) : string :=
  if String.eqb action "scale" then "Scale" else "Scroll".

(** [str((s,))] for a string without quotes or escapes: the view puts
    action and direction into one-element tuples before printing
    them. *)
Definition str_tuple (s : string) : string := "('" +:+ s +:+ "',)".

(** [projector_instance.save(skip_autoupdate=True)] with [scale] and
    [scroll] given as expressions: every field is written, the two at
    the value the database gets for them from the stored row (the one
    [get_object] has just read). *)
Definition save_expressions (pk : Z) (instance : Projector)
    (scale_e scroll_e : expression) : M unit :=
  modify (λ w,
    let stored := default instance (projectors w !! pk) in
    mkWorld
      (<[pk := set_scroll (resolve scroll_e (scroll stored))
                 (set_scale (resolve scale_e (scale stored)) instance)]>
         (projectors w))
      (projectiondefaults w) (projector_broadcast w) (uuid4_calls w)
      (informed w)).

(** [inform_changed_data(projector_instance)]. *)
Definition inform_changed_data (pk : Z) : M unit :=
  modify (λ w, mkWorld (projectors w) (projectiondefaults w)
                       (projector_broadcast w) (uuid4_calls w)
                       (informed w ++ [ChangedProjector pk])).

Definition control_view (pk : Z) (data : json) : M string :=
  let error := ValidationError
    ("Data must be a dictionary with an action ('scale' or 'scroll') " +:+
     "and a direction ('up', 'down' or 'reset').") in
  match data with
  | JDict data =>
      match one_of ["scale"; "scroll"] (Py.get data "action"),
            one_of ["up"; "down"; "reset"] (Py.get data "direction") with
      | Some action, Some direction =>
          projector_instance ← get_object pk;
          let e :=
            if String.eqb direction "up" then F_plus 1
            else if String.eqb direction "down" then F_plus (-1)
            else Value 0 in
          (if String.eqb action "scale"
           then save_expressions pk projector_instance e
                  (Value (scroll projector_instance))
           else save_expressions pk projector_instance
                  (Value (scale projector_instance)) e);;
          (* refresh_from_db *)
          inform_changed_data pk;;
          mret (str_tuple (capitalize action) +:+ " " +:+
                str_tuple direction +:+ " was successful.")
      | _, _ => raise error
      end
  | _ => raise (ValidationError "Data must be a dictionary.")
  end.

(** The view [set_scroll] (the setter of the record is [set_scroll]
    above). *)
Definition set_scroll_view (pk : Z) (data : json) : M string :=
  match Py.as_int data with
  | Some n =>
      projector_instance ← get_object pk;
      save pk (set_scroll n projector_instance);;
      mret ("Setting scroll to " +:+ str data +:+ " was successful.")
  | None => raise (ValidationError "Data must be an int.")
  end.

Definition control_blank (pk : Z) (data : json) : M string :=
  match data with
  | JBool b =>
      projector_instance ← get_object pk;
      save pk (set_blank b projector_instance);;
      mret ("Setting 'blank' to " +:+ str data +:+ " was successful.")
  | _ => raise (ValidationError "Data must be a bool.")
  end.

(** [pk] is the number the URL spells. *)
Definition broadcast (pk : Z) : M string :=
  w ← read;
  if bool_decide (projector_broadcast w = 0) then
    set_projector_broadcast pk;;
    mret ("Setting projector " +:+ pretty pk +:+
          " as broadcast projector was successful.")
  else
    set_projector_broadcast 0;;
    mret "Disabling broadcast was successful.".

Definition set_projectiondefault (pk : Z) (data : json) : M string :=
  match Py.as_int data with
  | Some id =>
      w ← read;
      match projectiondefaults w !! id with
      | Some projectiondefault =>
          _ ← get_object pk;
          save_projection_default id (set_projector_id pk projectiondefault);;
          mret ("Setting projectiondefault " +:+ Py.dquote +:+
                display_name projectiondefault +:+ Py.dquote +:+
                " to projector " +:+ pretty pk +:+ " was successful.")
      | None =>
          raise (ValidationError
                   ("The projectiondefault with pk=" +:+ str data +:+
                    " was not found."))
      end
  | None => raise (ValidationError "Data must be an int.")
  end.

End more_views.

(** ** The other viewsets

    [check_view_permissions] of every viewset asks what the request is
    for ([self.action]) and who sends it.  What it asks about the user
    is answered outside the views: [has_perm perm] stands for
    [has_perm(self.request.user, perm)], [check_permissions] for
    [self.get_access_permissions().check_permissions(self.request.user)],
    [is_authenticated] for [self.request.user.is_authenticated]. *)
Module ProjectorViewSet.
Section check.
Context (has_perm : string → bool) (check_permissions : bool).

Definition check_view_permissions (action : string) : bool :=
  if bool_decide (action ∈ ["list"; "retrieve"]) then check_permissions
  else if String.eqb action "metadata" then has_perm "core.can_see_projector"
  else if bool_decide
            (action ∈ ["create"; "update"; "partial_update"; "destroy";
                       "activate_elements"; "prune_elements";
                       "update_elements"; "deactivate_elements";
                       "clear_elements"; "project"; "control_view";
                       "set_resolution"; "set_scroll"; "control_blank";
                       "broadcast"; "set_projectiondefault"])
  then has_perm "core.can_see_projector" && has_perm "core.can_manage_projector"
  else false.

End check.
End ProjectorViewSet.

Module TagViewSet.
Section check.
Context (has_perm : string → bool) (check_permissions : bool)
  (is_authenticated anonymous_is_enabled : bool).

Definition check_view_permissions (action : string) : bool :=
  if bool_decide (action ∈ ["list"; "retrieve"]) then check_permissions
  else if String.eqb action "metadata"
  then is_authenticated || anonymous_is_enabled
  else if bool_decide (action ∈ ["create"; "partial_update"; "update"; "destroy"])
  then has_perm "core.can_manage_tags"
  else false.

End check.
End TagViewSet.

Module ConfigViewSet.

(** What [config[key] = value] can end with: the value is taken, or
    an exception is raised.  [update] catches [ConfigNotFound] and
    [ConfigError]; every other exception, named here by its class,
    passes through it. *)
Inductive assignment :=
  | Assigned
  | ConfigNotFound
  | ConfigError (e : string)
  | OtherError (name : string).

(** What [update] ends with: its answer, an exception that the
    framework turns into an answer, or an exception that nothing
    catches. *)
Inductive ending :=
  | Response (key : string) (value : json)
  | Raised (e : exception)
  | Uncaught (name : string).

Section views.
Context (has_perm : string → bool) (check_permissions : bool)
  (is_authenticated anonymous_is_enabled : bool).

(** [pk] is [self.kwargs["pk"]], the key of the config variable. *)
Definition check_view_permissions (action pk : string) : bool :=
  if bool_decide (action ∈ ["list"; "retrieve"]) then check_permissions
  else if String.eqb action "metadata"
  then is_authenticated || anonymous_is_enabled
  else if bool_decide (action ∈ ["partial_update"; "update"]) then
    if CPython.startswith pk "logo" || CPython.startswith pk "font"
    then has_perm "core.can_manage_logos_and_fonts"
    else has_perm "core.can_manage_config"
  else false.

(** The config is kept outside the views: [setitem key value] is
    [config[key] = value] on a store of type [Store]. *)
Context {Store : Type} (setitem : string → json → Store → assignment * Store).

(** [update]; the answer holds the key and the value.  [request.data]
    that is no dict has no [get]. *)
Definition update (key : string) (data : json) (store : Store)
    : ending * Store :=
  match data with
  | JDict data =>
      let value := Py.get data "value" in
      if Py.is_None value then
        (Raised (ValidationError "Invalid input. Config value is missing."),
         store)
      else
        match setitem key value store with
        | (Assigned, store) => (Response key value, store)
        | (ConfigNotFound, store) => (Raised Http404, store)
        | (ConfigError e, store) => (Raised (ValidationError e), store)
        | (OtherError name, store) => (Uncaught name, store)
        end
  | _ => (Uncaught "AttributeError", store)
  end.

End views.
End ConfigViewSet.

Module ChatMessageViewSet.

(** The chat messages by key, in the order of the queryset, and what
    [inform_deleted_data] has been called with. *)
Record Chat := mkChat {
  chatmessages : list Z;
  informed_deleted : list (list (string * Z));
}.

Section views.
Context (has_perm : string → bool) (check_permissions : bool)
  (is_authenticated : bool).

Definition check_view_permissions (action : string) : bool :=
  if bool_decide (action ∈ ["list"; "retrieve"]) then check_permissions
  else if bool_decide (action ∈ ["metadata"; "create"])
  then is_authenticated && has_perm "core.can_use_chat"
  else if String.eqb action "clear"
  then has_perm "core.can_use_chat" && has_perm "core.can_manage_chat"
  else false.

(** [collection_string] is [chatmessage.get_collection_string()]. *)
Context (collection_string : string).

Definition clear (chat : Chat) : string * Chat :=
  let args := (λ pk, (collection_string, pk)) <$> chatmessages chat in
  ("All chat messages deleted successfully.",
   mkChat []
     (match args with
      | [] => informed_deleted chat
      | _ => informed_deleted chat ++ [args]
      end)).

End views.
End ChatMessageViewSet.

Module ProjectorMessageViewSet.
Section check.
Context (has_perm : string → bool) (check_permissions : bool).

Definition check_view_permissions (action : string) : bool :=
  if bool_decide (action ∈ ["list"; "retrieve"]) then check_permissions
  else if bool_decide (action ∈ ["create"; "partial_update"; "update"; "destroy"])
  then has_perm "core.can_manage_projector"
  else false.

End check.
End ProjectorMessageViewSet.

Module CountdownViewSet.
Section check.
Context (has_perm : string → bool) (check_permissions : bool).

Definition check_view_permissions (action : string) : bool :=
  if bool_decide (action ∈ ["list"; "retrieve"]) then check_permissions
  else if bool_decide (action ∈ ["create"; "partial_update"; "update"; "destroy"])
  then has_perm "core.can_manage_projector"
  else false.

End check.
End CountdownViewSet.

Module HistoryViewSet.
Section check.
Context (check_permissions : bool).

Definition check_view_permissions (action : string) : bool :=
  if bool_decide (action ∈ ["list"; "retrieve"; "clear_history"])
  then check_permissions
  else false.

End check.
End HistoryViewSet.

(** ** Vocabulary of the further statements *)

(** The tables, the broadcast setting and the autoupdate log of two
    worlds agree (the random source may have moved on). *)
Definition same_database (w w' : World) : Prop :=
  projectors w' = projectors w ∧
  projectiondefaults w' = projectiondefaults w ∧
  projector_broadcast w' = projector_broadcast w ∧
  informed w' = informed w.

(** An element with a name that is not [None]. *)
Definition named (element : Element) : Prop :=
  Py.is_None (Py.get element "name") = false.

(** A config without the entries under [keys]. *)
Definition without (keys : list string) (c : gmap string Element)
    : gmap string Element :=
  filter (λ kv, kv.1 ∉ keys) c.

(** The broadcast setting is 0 or the key of a projector. *)
Definition broadcast_valid (w : World) : Prop :=
  projector_broadcast w = 0 ∨ is_Some (projectors w !! projector_broadcast w).

(** Every projection default refers to a projector of the table. *)
Definition defaults_valid (w : World) : Prop :=
  ∀ k d, projectiondefaults w !! k = Some d →
         is_Some (projectors w !! projector_id d).

(** A computation that leaves the config of every projector as it is. *)
Definition keeps_configs {A} (m : M A) : Prop :=
  ∀ w, config <$> projectors (m w).2 = config <$> projectors w.

(** Where a direction of [control_view] takes a scale or scroll. *)
Definition step (direction : string) (n : Z) : Z :=
  if String.eqb direction "up" then n + 1
  else if String.eqb direction "down" then n - 1
  else 0.

(** The request [{"action": action, "direction": direction}]. *)
Definition control (action direction : string) : json :=
  JDict {[ "action" := JStr action; "direction" := JStr direction ]}.

(** The actions that some viewset of the file knows. *)
Definition known_actions : list string :=
  ["list"; "retrieve"; "metadata"; "create"; "update"; "partial_update";
   "destroy"; "activate_elements"; "prune_elements"; "update_elements";
   "deactivate_elements"; "clear_elements"; "project"; "control_view";
   "set_resolution"; "set_scroll"; "control_blank"; "broadcast";
   "set_projectiondefault"; "clear"; "clear_history"].

(** The views of [ProjectorViewSet] that change a projector or the
    tables around it. *)
Definition projector_routes : list string :=
  ["destroy"; "activate_elements"; "prune_elements"; "update_elements";
   "deactivate_elements"; "clear_elements"; "project"; "control_view";
   "set_resolution"; "set_scroll"; "control_blank"; "broadcast";
   "set_projectiondefault"].

(** ** Further requests to run the views on *)
Module Requests.

(** The example database with broadcasting off. *)
Definition quiet : World :=
  mkWorld (projectors Example.world) (projectiondefaults Example.world) 0 0 [].

(** A request to clear projector 1 and to show the slide on projector 2. *)
Definition move_prune : gmap string json :=
  {[ "id" := JInt 2; "element" := JDict Example.slide ]}.

Definition move_request : gmap string json :=
  {[ "clear_ids" := JList (JInt <$> [1]); "prune" := JDict move_prune ]}.

(** A request to clear two projectors that do not exist. *)
Definition ghost_request : gmap string json :=
  {[ "clear_ids" := JList (JInt <$> [7; 8]) ]}.

Definition resolution : gmap string json :=
  {[ "width" := JInt 1280; "height" := JInt 720 ]}.

(** A request to show the slide on projector 3, which does not exist,
    with [null] where the ids to clear belong. *)
Definition null_ids_prune : gmap string json :=
  {[ "id" := JInt 3; "element" := JDict Example.slide ]}.

Definition null_ids_request : gmap string json :=
  {[ "clear_ids" := JNull; "prune" := JDict null_ids_prune ]}.

(** A user with the two permissions of the projector. *)
Definition manager (perm : string) : bool :=
  bool_decide (perm ∈ ["core.can_see_projector"; "core.can_manage_projector"]).

(** A user who may change the config and nothing else. *)
Definition config_manager (perm : string) : bool :=
  String.eqb perm "core.can_manage_config".

(** The anonymous group with both permissions of the chat. *)
Definition chatter (perm : string) : bool :=
  bool_decide (perm ∈ ["core.can_use_chat"; "core.can_manage_chat"]).

End Requests.

(** ** Reasoning about the request monad *)

#[local] Arguments M_bind : simpl never.
#[local] Arguments M_ret : simpl never.

Lemma bind_Return {A B} (m : M A) (f : A → M B) w a w' :
  m w = (Return a, w') → (m ≫= f) w = f a w'.
Proof. intros E. unfold mbind, M_bind. by rewrite E. Qed.

Lemma bind_Raise {A B} (m : M A) (f : A → M B) w e w' :
  m w = (Raise e, w') → (m ≫= f) w = (Raise e, w').
Proof. intros E. unfold mbind, M_bind. by rewrite E. Qed.

(** Unfolds the primitive steps of a view applied to a world. *)
Ltac run :=
  repeat (unfold mbind, M_bind, mret, M_ret, raise, read, modify; simpl).

(** A loop whose body never writes leaves the world as it was. *)
Lemma for_each_pure {A} (body : A → M unit) (xs : list A) w :
  (∀ x w0, (body x w0).2 = w0) → (for_each xs body w).2 = w.
Proof.
  intros Hbody. induction xs as [|x xs IH]; [done|]. simpl.
  unfold mbind, M_bind. specialize (Hbody x w).
  destruct (body x w) as [[b|e] w1]; simpl in *; by subst.
Qed.

Lemma for_fold_pure {A S} (body : S → A → M S) (xs : list A) s w :
  (∀ s0 x w0, (body s0 x w0).2 = w0) → (for_fold xs body s w).2 = w.
Proof.
  intros Hbody. revert s. induction xs as [|x xs IH]; intros s; [done|].
  simpl. unfold mbind, M_bind. specialize (Hbody s x w).
  destruct (body s x w) as [[b|e] w1]; simpl in *; subst; [apply IH|done].
Qed.

(** ** The parser of UUIDs

    What [CPython.UUID] accepts: 32 digits of base 16, bare, with
    hyphens, in braces or as a URN. *)
Module CPythonFacts.
Import CPython.

Lemma isxdigit_cases c :
  isxdigit c = true →
  isspace c = false ∧ brace c = false ∧ char 43 c = false ∧
  char 45 c = false ∧ char 95 c = false ∧
  char 120 c = false ∧ char 88 c = false.
Proof.
  destruct c as [[] [] [] [] [] [] [] []]; vm_compute; intros; by repeat split.
Qed.

Lemma all_app p s1 s2 : all p (s1 +:+ s2) = all p s1 && all p s2.
Proof.
  induction s1 as [|c s1 IH]; [done|]. simpl. by rewrite IH, andb_assoc.
Qed.

Lemma all_impl (p q : ascii → bool) s :
  (∀ c, p c = true → q c = true) → all p s = true → all q s = true.
Proof.
  intros Hpq. induction s as [|c s IH]; [done|]. simpl.
  intros [Hc Hs]%andb_true_iff. by rewrite (Hpq c Hc), IH.
Qed.

Lemma length_app s1 s2 :
  String.length (s1 +:+ s2) = (String.length s1 + String.length s2)%nat.
Proof. induction s1 as [|c s1 IH]; [done|]. simpl. by rewrite IH. Qed.

Lemma replace_go_cons old c s :
  replace_go old 0 (String c s) =
    if startswith (String c s) old
    then replace_go old (String.length old - 1) s
    else String c (replace_go old 0 s).
Proof. done. Qed.

Lemma startswith_cons a old b s :
  startswith (String b s) (String a old) = Ascii.eqb a b && startswith s old.
Proof. done. Qed.

(** A string without the first character of [old] has no match. *)
Lemma replace_clean (p : ascii → bool) c0 old s :
  p c0 = false → all p s = true → replace (String c0 old) s = s.
Proof.
  intros Hc0. unfold replace. induction s as [|c s IH]; [done|].
  intros [Hc Hs]%andb_true_iff.
  rewrite replace_go_cons, startswith_cons.
  destruct (Ascii.eqb_spec c0 c) as [->|_]; [congruence|].
  simpl. by rewrite IH.
Qed.

Lemma replace_hyphen_app s1 s2 :
  all isxdigit s1 = true →
  replace "-" (s1 +:+ "-" +:+ s2) = s1 +:+ replace "-" s2.
Proof.
  unfold replace. induction s1 as [|c s1 IH]; [done|].
  intros [Hc Hs]%andb_true_iff.
  change (String c s1 +:+ "-" +:+ s2) with (String c (s1 +:+ "-" +:+ s2)).
  rewrite replace_go_cons, startswith_cons.
  destruct (Ascii.eqb_spec "-" c) as [<-|_]; [done|].
  simpl. by rewrite IH.
Qed.

Lemma lstrip_head p c s : p c = false → lstrip p (String c s) = String c s.
Proof. simpl. by intros ->. Qed.

Lemma rstrip_clean p s :
  all (λ c, negb (p c)) s = true → rstrip p s = s.
Proof.
  induction s as [|c s IH]; [done|]. simpl.
  intros [Hc Hs]%andb_true_iff. rewrite IH by done.
  apply negb_true_iff in Hc. rewrite Hc. by destruct s.
Qed.

Lemma rstrip_last p c0 s :
  p c0 = true → all (λ c, negb (p c)) s = true →
  rstrip p (s +:+ String c0 EmptyString) = s.
Proof.
  intros Hc0. induction s as [|c s IH]; simpl.
  - by rewrite Hc0.
  - intros [Hc Hs]%andb_true_iff. rewrite IH by done.
    apply negb_true_iff in Hc. rewrite Hc. by destruct s.
Qed.

Lemma digits_all s : all isxdigit s = true → digits true false s = true.
Proof.
  induction s as [|c s IH]; [done|]. simpl.
  intros [Hc Hs]%andb_true_iff. by rewrite Hc, IH.
Qed.

Lemma int16_xdigits s :
  all isxdigit s = true → s ≠ EmptyString → int16 s = true.
Proof.
  destruct s as [|c0 s]; [done|]. simpl. intros [Hc0 Hs]%andb_true_iff _.
  destruct (isxdigit_cases c0 Hc0) as (Hsp & _ & Hplus & Hminus & _).
  unfold int16. rewrite lstrip_head by done. rewrite Hplus, Hminus. simpl.
  destruct s as [|c1 s].
  - simpl. by rewrite Hc0.
  - simpl in Hs. apply andb_true_iff in Hs as [Hc1 Hs].
    destruct (isxdigit_cases c1 Hc1) as (_ & _ & _ & _ & _ & Hx & HX).
    rewrite Hx, HX, andb_false_r. simpl. rewrite Hc0, Hc1. by apply digits_all.
Qed.

Section forms.
Variables a b c d e : string.
Hypothesis Ha : xdigits 8 a.
Hypothesis Hb : xdigits 4 b.
Hypothesis Hc : xdigits 4 c.
Hypothesis Hd : xdigits 4 d.
Hypothesis He : xdigits 12 e.

Lemma bare_xdigits : xdigits 32 (bare a b c d e).
Proof.
  destruct Ha as [La Xa], Hb as [Lb Xb], Hc as [Lc Xc], Hd as [Ld Xd],
    He as [Le Xe].
  split; unfold bare.
  - rewrite !length_app. lia.
  - rewrite !all_app. by rewrite Xa, Xb, Xc, Xd, Xe.
Qed.

Lemma UUID_xdigits s : xdigits 32 s → UUID s = true.
Proof.
  intros [Ls Xs]. unfold UUID.
  rewrite (replace_clean isxdigit "u" "rn:") by done.
  rewrite (replace_clean isxdigit "u" "uid:") by done.
  assert (strip brace s = s) as ->.
  { unfold strip. destruct s as [|c0 s]; [done|].
    simpl in Xs. apply andb_true_iff in Xs as [Hc0 Xs].
    destruct (isxdigit_cases c0 Hc0) as (_ & Hbr & _).
    rewrite lstrip_head by done. apply rstrip_clean. simpl.
    rewrite Hbr. simpl. eapply all_impl; [|exact Xs].
    intros c1 Hc1. by destruct (isxdigit_cases c1 Hc1) as (_ & -> & _). }
  rewrite (replace_clean isxdigit "-" "") by done.
  rewrite Ls. simpl. apply int16_xdigits; [done|]. by destruct s.
Qed.

Lemma written_xdigits s : all isxdigit s = true → all written s = true.
Proof. apply all_impl. intros c0 H0. unfold written. by rewrite H0. Qed.

Lemma hyphenated_written : all written (hyphenated a b c d e) = true.
Proof.
  destruct Ha as [_ Xa], Hb as [_ Xb], Hc as [_ Xc], Hd as [_ Xd],
    He as [_ Xe].
  unfold hyphenated. rewrite !all_app.
  by rewrite (written_xdigits a), (written_xdigits b), (written_xdigits c),
    (written_xdigits d), (written_xdigits e).
Qed.

Lemma hyphenated_no_brace :
  all (λ c, negb (brace c)) (hyphenated a b c d e) = true.
Proof.
  destruct Ha as [_ Xa], Hb as [_ Xb], Hc as [_ Xc], Hd as [_ Xd],
    He as [_ Xe].
  assert (Hx : ∀ s, all isxdigit s = true → all (λ c, negb (brace c)) s = true).
  { intros s. apply all_impl. intros c0 H0.
    by destruct (isxdigit_cases c0 H0) as (_ & -> & _). }
  unfold hyphenated. rewrite !all_app.
  by rewrite (Hx a), (Hx b), (Hx c), (Hx d), (Hx e).
Qed.

Lemma hyphenated_head :
  ∃ c0 rest, hyphenated a b c d e = String c0 rest ∧ brace c0 = false.
Proof.
  destruct Ha as [La Xa]. destruct a as [|c0 a']; [done|].
  exists c0, (a' +:+ "-" +:+ b +:+ "-" +:+ c +:+ "-" +:+ d +:+ "-" +:+ e).
  split; [done|]. simpl in Xa. apply andb_true_iff in Xa as [H0 _].
  by destruct (isxdigit_cases c0 H0) as (_ & -> & _).
Qed.

Lemma replace_hyphenated :
  replace "-" (hyphenated a b c d e) = bare a b c d e.
Proof.
  destruct Ha as [_ Xa], Hb as [_ Xb], Hc as [_ Xc], Hd as [_ Xd],
    He as [_ Xe].
  unfold hyphenated, bare.
  rewrite !replace_hyphen_app by done.
  by rewrite (replace_clean isxdigit "-" "") by done.
Qed.

Lemma strip_hyphenated :
  strip brace (hyphenated a b c d e) = hyphenated a b c d e.
Proof.
  destruct hyphenated_head as (c0 & rest & Heq & H0).
  unfold strip. rewrite Heq, lstrip_head by done. rewrite <- Heq.
  apply rstrip_clean, hyphenated_no_brace.
Qed.

Lemma UUID_stripped s :
  replace "uuid:" (replace "urn:" s) = hyphenated a b c d e →
  UUID s = true.
Proof.
  intros Hs. unfold UUID. rewrite Hs, strip_hyphenated, replace_hyphenated.
  destruct bare_xdigits as [L X]. rewrite L. simpl.
  apply int16_xdigits; [done|]. intros Hempty. by rewrite Hempty in L.
Qed.

Lemma UUID_bare : UUID (bare a b c d e) = true.
Proof. apply UUID_xdigits, bare_xdigits. Qed.

Lemma UUID_hyphenated : UUID (hyphenated a b c d e) = true.
Proof.
  apply UUID_stripped.
  rewrite (replace_clean written "u" "rn:") by (done || apply hyphenated_written).
  by rewrite (replace_clean written "u" "uid:") by (done || apply hyphenated_written).
Qed.

Lemma UUID_braced : UUID (braced a b c d e) = true.
Proof.
  assert (Hw : all written (braced a b c d e) = true).
  { unfold braced. rewrite !all_app. by rewrite hyphenated_written. }
  unfold UUID.
  rewrite (replace_clean written "u" "rn:") by done.
  rewrite (replace_clean written "u" "uid:") by done.
  assert (strip brace (braced a b c d e) = hyphenated a b c d e) as ->.
  { destruct hyphenated_head as (c0 & rest & Heq & H0).
    unfold strip, braced.
    change ("{" +:+ ?s) with (String "{" s). 
    change (lstrip brace (String "{" ?s)) with (lstrip brace s).
    rewrite Heq. change (String c0 rest +:+ "}") with (String c0 (rest +:+ "}")).
    rewrite lstrip_head by done.
    change (String c0 (rest +:+ "}")) with (String c0 rest +:+ "}").
    rewrite <- Heq. by apply rstrip_last, hyphenated_no_brace. }
  rewrite replace_hyphenated.
  destruct bare_xdigits as [L X]. rewrite L. simpl.
  apply int16_xdigits; [done|]. intros Hempty. by rewrite Hempty in L.
Qed.

Lemma UUID_urn : UUID (urn a b c d e) = true.
Proof.
  apply UUID_stripped. unfold urn.
  assert (replace "urn:" ("urn:uuid:" +:+ hyphenated a b c d e)
          = "uuid:" +:+ replace "urn:" (hyphenated a b c d e)) as ->
    by reflexivity.
  rewrite (replace_clean written "u" "rn:") by (done || apply hyphenated_written).
  assert (replace "uuid:" ("uuid:" +:+ hyphenated a b c d e)
          = replace "uuid:" (hyphenated a b c d e)) as ->
    by reflexivity.
  by rewrite (replace_clean written "u" "uid:") by (done || apply hyphenated_written).
Qed.

Lemma UUID_forms : Forall (λ key, UUID key = true) (forms a b c d e).
Proof.
  repeat constructor;
    [apply UUID_bare|apply UUID_hyphenated|apply UUID_braced|apply UUID_urn].
Qed.

End forms.

End CPythonFacts.

Section properties.
Context `{Externals}.

(** ** The stable entries *)

Lemma keep_stable_filter (c : gmap string Element) :
  keep_stable c = filter (λ kv, stable kv.2 = true) c.
Proof.
  unfold keep_stable.
  apply (map_fold_weak_ind (λ r m, r = filter (λ kv, stable kv.2 = true) m)).
  - by rewrite map_filter_empty.
  - intros k e m r Hk ->. destruct (stable e) eqn:He.
    + by rewrite map_filter_insert_True.
    + rewrite map_filter_insert_not'; [done| |].
      * simpl. congruence.
      * intros y. rewrite Hk. done.
Qed.

(** With a boolean [stable] field, as the data model has it, the test
    is [stable == True]; without the field an element is not stable. *)
Lemma stable_bool (e : Element) (b : bool) :
  e !! "stable" = Some (JBool b) → stable e = b.
Proof. unfold stable, Py.get. by intros ->. Qed.

Lemma stable_absent (e : Element) : e !! "stable" = None → stable e = false.
Proof. unfold stable, Py.get. by intros ->. Qed.

(** Any other value counts by its truth value: a non-empty string or a
    non-zero number makes an element stable, [None], an empty string or
    0 does not. *)
Lemma stable_truth_value :
  stable {[ "stable" := JStr "no" ]} = true ∧
  stable {[ "stable" := JInt 1 ]} = true ∧
  stable {[ "stable" := JInt 0 ]} = false ∧
  stable {[ "stable" := JStr "" ]} = false ∧
  stable {[ "stable" := JNull ]} = false.
Proof. by vm_compute. Qed.


(** ** [clear] and [prune] step by step *)

Lemma serializer_save_valid pk p c w :
  serializer_errors c = None →
  serializer_save pk p c w = (Return (set_config c p), (save pk (set_config c p) w).2).
Proof. intros E. unfold serializer_save. rewrite E. by run. Qed.

Lemma serializer_save_invalid pk p c w detail :
  serializer_errors c = Some detail →
  serializer_save pk p c w = (Raise (ValidationError detail), w).
Proof. intros E. unfold serializer_save. by rewrite E. Qed.

Lemma get_object_Some pk p w :
  projectors w !! pk = Some p → get_object pk w = (Return p, w).
Proof. intros E. unfold get_object. run. by rewrite E. Qed.

Lemma get_object_None pk w :
  projectors w !! pk = None → get_object pk w = (Raise Http404, w).
Proof. intros E. unfold get_object. run. by rewrite E. Qed.

Lemma clear_valid pk p w :
  serializer_errors (keep_stable (config p)) = None →
  clear pk p w =
    (Return (set_config (keep_stable (config p)) p),
     (save pk (set_config (keep_stable (config p)) p) w).2).
Proof. intros E. unfold clear. by apply serializer_save_valid. Qed.

Lemma add_elements_run (elements : list Element) (c : gmap string Element) w :
  for_fold elements
    (λ projector_config element,
       key ← uuid4; mret (<[key := element]> projector_config)) c w =
  (Return (foldl (λ c kv, <[kv.1 := kv.2]> c) c
             (zip (drawn w (length elements)) elements)),
   after_draws (length elements) w).
Proof.
  revert c w. induction elements as [|e es IH]; intros c w.
  - unfold after_draws. destruct w. simpl. by rewrite Nat.add_0_r.
  - simpl. unfold mbind at 1, M_bind at 1. unfold mbind at 1, M_bind at 1.
    unfold uuid4 at 1. simpl. rewrite IH. f_equal.
    + f_equal. unfold drawn. simpl. rewrite Nat.add_0_r. f_equal.
      f_equal. rewrite <- fmap_S_seq, <- list_fmap_compose.
      apply list_fmap_ext. intros ? i ?. simpl. f_equal. lia.
    + unfold after_draws. simpl. f_equal. lia.
Qed.

Lemma foldl_insert_union (l : list (string * Element)) (c : gmap string Element) :
  NoDup l.*1 →
  foldl (λ c kv, <[kv.1 := kv.2]> c) c l = list_to_map l ∪ c.
Proof.
  revert c. induction l as [|[k e] l IH]; intros c Hnd; simpl.
  - by rewrite (left_id_L ∅ (∪)).
  - apply NoDup_cons in Hnd as [Hk Hnd]. rewrite IH by done.
    rewrite <- insert_union_l. rewrite insert_union_r; [done|].
    by apply not_elem_of_list_to_map_1.
Qed.


Lemma check_elements_run (elements : list Element) w :
  Forall (λ e, Py.is_None (Py.get e "name") = false) elements →
  for_map (JDict <$> elements)
    (λ element,
       match element with
       | JDict element =>
           if Py.is_None (Py.get element "name")
           then raise name_is_missing
           else mret element
       | _ => raise (ValidationError "All elements have to be dicts.")
       end) w = (Return elements, w).
Proof.
  induction 1 as [|e es He _ IH]; [done|]. simpl.
  erewrite bind_Return; [|by rewrite He]. by erewrite bind_Return.
Qed.

Lemma prune_run pk p (elements : list Element) w :
  let c := foldl (λ c kv, <[kv.1 := kv.2]> c) (keep_stable (config p))
             (zip (drawn w (length elements)) elements) in
  serializer_errors c = None →
  ∃ w', prune pk p elements w = (Return (set_scroll 0 (set_config c p)), w') ∧
        projectors w' = <[pk := set_scroll 0 (set_config c p)]> (projectors w).
Proof.
  intros c Hc. unfold prune.
  erewrite bind_Return by apply add_elements_run. fold c.
  erewrite bind_Return by by apply serializer_save_valid.
  case_bool_decide as Hs.
  - eexists. split; [run; reflexivity|]. simpl. by rewrite insert_insert_eq.
  - assert (set_scroll 0 (set_config c p) = set_config c p) as ->.
    { destruct p; unfold set_scroll, set_config in *; simpl in *.
      f_equal. lia. }
    eexists. split; [run; reflexivity|done].
Qed.

Lemma drawn_length w n : length (drawn w n) = n.
Proof. unfold drawn. by rewrite length_fmap, length_seq. Qed.


(** ** PruneElements *)

(** C4.  For a projector [p] stored under [pk] and a request that is a
    list of elements with a non-null name, [prune_elements] returns,
    and stores, the projector whose mapping is the stable entries of
    the old mapping, under their old keys, together with one entry per
    input element under the key drawn for it, and whose scroll is 0.
    Every entry that was not stable is gone.  The drawn keys are taken
    to be fresh: distinct and not in the old mapping.  An element is
    stable when its [stable] field is true as a condition; for a
    boolean field that is [stable == True]. *)
Theorem prune_elements_mapping (w : World) (pk : Z) (p : Projector)
    (elements : list Element) :
  let keys := drawn w (length elements) in
  let fresh : gmap string Element := list_to_map (zip keys elements) in
  let kept := stable_entries (config p) in
  projectors w !! pk = Some p →
  Forall (λ e, Py.is_None (Py.get e "name") = false) elements →
  NoDup keys →
  Forall (absent (config p)) keys →
  serializer_errors (kept ∪ fresh) = None →
  ∃ p' w',
    prune_elements pk (JList (JDict <$> elements)) w = (Return p', w') ∧
    projectors w' = <[pk := p']> (projectors w) ∧
    config p' = kept ∪ fresh ∧
    kept ##ₘ fresh ∧
    size (config p') = (size kept + length elements)%nat ∧
    (∀ i key element,
       keys !! i = Some key → elements !! i = Some element →
       config p' !! key = Some element) ∧
    (∀ key element,
       config p !! key = Some element →
       config p' !! key = if stable element then Some element else None) ∧
    (∀ key element (b : bool),
       config p !! key = Some element →
       element !! "stable" = Some (JBool b) →
       config p' !! key = if b then Some element else None) ∧
    scroll p' = 0.
Proof.
  intros keys fresh kept Hp Hnames Hnd Hfresh Hvalid.
  assert (Hlen : length keys = length elements) by apply drawn_length.
  assert (Hfst : (zip keys elements).*1 = keys) by by apply fst_zip; lia.
  assert (Hdisj : kept ##ₘ fresh).
  { apply map_disjoint_spec. intros k e1 e2 Hk1 Hk2.
    apply map_lookup_filter_Some in Hk1 as [Hk1 _].
    apply elem_of_list_to_map_2, (list_elem_of_fmap_2 fst) in Hk2.
    rewrite Hfst in Hk2. simpl in Hk2.
    rewrite Forall_forall in Hfresh. specialize (Hfresh _ Hk2).
    unfold absent in Hfresh. congruence. }
  assert (Hc : foldl (λ c kv, <[kv.1 := kv.2]> c) (keep_stable (config p))
                 (zip keys elements) = kept ∪ fresh).
  { rewrite foldl_insert_union by by rewrite Hfst.
    rewrite keep_stable_filter. fold kept. by apply map_union_comm. }
  destruct (prune_run pk p elements w) as (w' & Hrun & Hw').
  { fold keys. by rewrite Hc. }
  fold keys in Hrun, Hw'. rewrite Hc in Hrun, Hw'.
  set (p' := set_scroll 0 (set_config (kept ∪ fresh) p)) in *.
  assert (Hkept : ∀ key element,
            config p !! key = Some element →
            config p' !! key = if stable element then Some element else None).
  { intros key element Hkey. simpl.
    assert (fresh !! key = None) as Hnew.
    { apply not_elem_of_list_to_map_1. rewrite Hfst. intros Hin.
      rewrite Forall_forall in Hfresh. specialize (Hfresh _ Hin).
      unfold absent in Hfresh. congruence. }
    rewrite lookup_union_l by done.
    unfold kept, stable_entries. rewrite map_lookup_filter, Hkey. simpl.
    by destruct (stable element). }
  exists p', w'. split_and!; [|done|done|done| | |done| |done].
  - unfold prune_elements.
    erewrite bind_Return by by apply get_object_Some.
    erewrite bind_Return by by apply check_elements_run.
    done.
  - simpl. rewrite map_size_disj_union by done. f_equal.
    unfold fresh. rewrite map_size_list_to_map by by rewrite Hfst.
    rewrite length_zip. lia.
  - intros i key element Hi He. simpl.
    apply lookup_union_Some_raw. 
    destruct (kept !! key) eqn:Hk.
    { exfalso. apply map_lookup_filter_Some in Hk as [Hk _].
      rewrite Forall_forall in Hfresh.
      assert (key ∈ keys) as Hin by by eapply list_elem_of_lookup_2.
      specialize (Hfresh _ Hin). unfold absent in Hfresh. congruence. }
    right. split; [done|].
    apply elem_of_list_to_map_1; [by rewrite Hfst|].
    apply list_elem_of_lookup. exists i. by apply lookup_zip_Some.
  - intros key element b Hkey Hb. rewrite (Hkept _ _ Hkey).
    by rewrite (stable_bool _ _ Hb).
Qed.

(** ** ClearElements *)

Lemma clear_run pk p w :
  serializer_errors (stable_entries (config p)) = None →
  clear pk p w =
    (Return (set_config (stable_entries (config p)) p),
     (save pk (set_config (stable_entries (config p)) p) w).2).
Proof.
  unfold stable_entries. rewrite <- keep_stable_filter. apply clear_valid.
Qed.

(** The clearing loop over rows with distinct keys: every row of the
    list is cleared, every other projector stays. *)
Lemma clear_rows_run (rows : list (Z * Projector)) w :
  NoDup rows.*1 →
  (∀ pk p, (pk, p) ∈ rows →
           serializer_errors (stable_entries (config p)) = None) →
  ∃ w',
    for_each rows (λ '(pk, projector), clear pk projector;; mret tt) w
      = (Return tt, w') ∧
    ∀ pk, projectors w' !! pk =
            match (list_to_map rows : gmap Z Projector) !! pk with
            | Some p => Some (set_config (stable_entries (config p)) p)
            | None => projectors w !! pk
            end.
Proof.
  revert w. induction rows as [|[pk0 p0] rows IH]; intros w Hnd Hvalid.
  - exists w. split; [done|]. intros pk. simpl. by rewrite lookup_empty.
  - rewrite fmap_cons in Hnd. apply NoDup_cons in Hnd as [Hpk0 Hnd].
    assert (Hnone : (list_to_map rows : gmap Z Projector) !! pk0 = None)
      by by apply not_elem_of_list_to_map_1.
    destruct (IH (save pk0 (set_config (stable_entries (config p0)) p0) w).2)
      as (w' & Hrun & Hw'); [done| |].
    { intros pk p Hin. apply (Hvalid pk p). by right. }
    exists w'. split.
    + simpl. erewrite bind_Return; [exact Hrun|].
      erewrite bind_Return; [reflexivity|].
      apply clear_run, (Hvalid pk0 p0). by left.
    + intros pk. rewrite Hw'. clear Hw' Hrun.
      unfold save, modify. simpl.
      destruct (decide (pk0 = pk)) as [->|Hne].
      * by rewrite Hnone, !lookup_insert_eq.
      * by rewrite !(lookup_insert_ne _ pk0 pk).
Qed.

Lemma clear_all_run (ids : list Z) w :
  (∀ pk p, pk ∈ ids → projectors w !! pk = Some p →
           serializer_errors (stable_entries (config p)) = None) →
  ∃ w',
    clear_all ids w = (Return tt, w') ∧
    ∀ pk, projectors w' !! pk =
            (λ p, if bool_decide (pk ∈ ids)
                  then set_config (stable_entries (config p)) p else p)
            <$> projectors w !! pk.
Proof.
  intros Hvalid. unfold clear_all.
  set (rows := filter (λ row : Z * Projector, row.1 ∈ ids)
                 (map_to_list (projectors w))).
  assert (Hrows : ∀ pk p, (pk, p) ∈ rows ↔
                           pk ∈ ids ∧ projectors w !! pk = Some p).
  { intros pk p. unfold rows. rewrite list_elem_of_filter.
    by rewrite elem_of_map_to_list. }
  assert (Hnd : NoDup rows.*1).
  { apply (sublist_NoDup _ (map_to_list (projectors w)).*1);
      [apply NoDup_fst_map_to_list|].
    apply fmap_sublist, sublist_filter. }
  destruct (clear_rows_run rows w Hnd) as (w' & Hrun & Hw').
  { intros pk p Hin. apply Hrows in Hin as [? ?]. by eapply Hvalid. }
  exists w'. split.
  - by erewrite bind_Return.
  - intros pk. rewrite Hw'.
    destruct (list_to_map rows !! pk) as [p|] eqn:Hl.
    + apply elem_of_list_to_map in Hl; [|done].
      apply Hrows in Hl as [Hin ->]. simpl. by rewrite bool_decide_true.
    + destruct (projectors w !! pk) as [p|] eqn:Hp; [|done]. simpl.
      case_bool_decide as Hin; [|done]. exfalso.
      apply (not_elem_of_list_to_map_2 _ _ Hl).
      apply (list_elem_of_fmap_2 fst _ (pk, p)). by apply Hrows.
Qed.

(** A request without [prune] whose [clear_ids] is a list of ints runs
    the clearing loop and nothing else. *)
Lemma ids_run (ids : list Z) w :
  for_map (JInt <$> ids)
    (λ id,
       match Py.as_int id with
       | Some n => mret n
       | None =>
           raise (ValidationError
                    ("The id " +:+ Py.dquote +:+ str id +:+
                     Py.dquote +:+ " has to be int."))
       end) w = (Return ids, w).
Proof.
  induction ids as [|id ids IH]; [done|]. simpl.
  erewrite bind_Return; [|reflexivity]. by erewrite bind_Return.
Qed.

Lemma project_clear_only (data : gmap string json) (ids : list Z) w :
  data !! "prune" = None →
  data !! "clear_ids" = Some (JList (JInt <$> ids)) →
  project (JDict data) w =
    (clear_all ids ≫= λ _, mret tt) w.
Proof.
  intros Hprune Hids. unfold project, Py.get_default, Py.get.
  rewrite Hprune, Hids. simpl.
  erewrite bind_Return by apply ids_run.
  erewrite bind_Return by reflexivity. done.
Qed.

(** C3, as amended.  [clear] keeps the stable entries of the mapping
    and does not reset scroll: scroll is left as it was, and so are
    scale, width, height and blank.  So does the [clear_elements] view,
    and so does the first step of [project] for each existing projector
    among [clear_ids] (shown on the loop of that step, and on requests
    without [prune], which are that step and nothing else). *)
Theorem clear_leaves_scroll (w : World) :
  (∀ pk p,
     projectors w !! pk = Some p →
     serializer_errors (stable_entries (config p)) = None →
     ∃ p' w',
       clear_elements pk w = (Return p', w') ∧
       projectors w' = <[pk := p']> (projectors w) ∧
       config p' = stable_entries (config p) ∧
       scroll p' = scroll p ∧
       scale p' = scale p ∧ width p' = width p ∧ height p' = height p ∧
       blank p' = blank p) ∧
  (∀ ids : list Z,
     (∀ pk p, pk ∈ ids → projectors w !! pk = Some p →
              serializer_errors (stable_entries (config p)) = None) →
     ∃ w',
       clear_all ids w = (Return tt, w') ∧
       (∀ (data : gmap string json),
          data !! "prune" = None →
          data !! "clear_ids" = Some (JList (JInt <$> ids)) →
          project (JDict data) w = (Return tt, w')) ∧
       ∀ pk p,
         pk ∈ ids → projectors w !! pk = Some p →
         ∃ p', projectors w' !! pk = Some p' ∧
               config p' = stable_entries (config p) ∧
               scroll p' = scroll p ∧
               scale p' = scale p ∧ width p' = width p ∧
               height p' = height p ∧ blank p' = blank p).
Proof.
  split.
  - intros pk p Hp Hvalid.
    exists (set_config (stable_entries (config p)) p).
    exists (save pk (set_config (stable_entries (config p)) p) w).2.
    split_and!; [|done..].
    unfold clear_elements.
    erewrite bind_Return by by apply get_object_Some.
    by apply clear_run.
  - intros ids Hvalid.
    destruct (clear_all_run ids w Hvalid) as (w' & Hrun & Hw').
    exists w'. split_and!.
    + done.
    + intros data Hprune Hids.
      rewrite (project_clear_only data ids) by done.
      by erewrite bind_Return.
    + intros pk p Hin Hp. rewrite Hw', Hp. simpl.
      rewrite bool_decide_true by done.
      eexists. split; [reflexivity|]. by split_and!.
Qed.

(** C8.  [prune_elements] with an empty list and [clear_elements]
    answer with the same element mapping and leave the same element
    mapping in every row of the projector table; when they return,
    that mapping is the stable entries of the old one. *)
Theorem prune_empty_is_clear (w : World) (pk : Z) :
  config <$> (prune_elements pk (JList []) w).1
    = config <$> (clear_elements pk w).1 ∧
  config <$> projectors (prune_elements pk (JList []) w).2
    = config <$> projectors (clear_elements pk w).2 ∧
  match projectors w !! pk, (clear_elements pk w).1 with
  | Some p, Return p' => config p' = stable_entries (config p)
  | _, _ => True
  end.
Proof.
  destruct (projectors w !! pk) as [p|] eqn:Hp.
  - assert (prune_elements pk (JList []) w = prune pk p [] w) as ->.
    { unfold prune_elements.
      erewrite bind_Return by by apply get_object_Some.
      by erewrite bind_Return by reflexivity. }
    assert (clear_elements pk w = clear pk p w) as ->.
    { unfold clear_elements.
      by erewrite bind_Return by by apply get_object_Some. }
    unfold prune, clear. erewrite bind_Return by reflexivity.
    destruct (serializer_errors (keep_stable (config p))) as [d|] eqn:Hv.
    + erewrite bind_Raise by by apply serializer_save_invalid.
      by erewrite serializer_save_invalid.
    + erewrite bind_Return by by apply serializer_save_valid.
      rewrite serializer_save_valid by done.
      rewrite keep_stable_filter. fold (stable_entries (config p)).
      case_bool_decide; simpl; [|done].
      split_and!; [done| |done].
      by rewrite !fmap_insert, insert_insert_eq.
  - unfold prune_elements, clear_elements.
    erewrite !bind_Raise by by apply get_object_None. done.
Qed.

(** ** Project: what is checked before anything is cleared *)

Lemma check_id_int id n w :
  Py.as_int id = Some n → check_id id w = (Return n, w).
Proof. unfold check_id. by intros ->. Qed.

Lemma check_id_other id w :
  Py.as_int id = None → ∃ detail, check_id id w = (Raise (ValidationError detail), w).
Proof. unfold check_id. intros ->. by eexists. Qed.

Lemma check_ids_cases (l : list json) w :
  (∃ ids, for_map l check_id w = (Return ids, w)) ∨
  (∃ detail, for_map l check_id w = (Raise (ValidationError detail), w)).
Proof.
  induction l as [|id l IH]; [left; by exists []|]. simpl.
  destruct (Py.as_int id) as [n|] eqn:Hn.
  - erewrite bind_Return by by apply check_id_int.
    destruct IH as [[ids IH]|[detail IH]].
    + left. exists (n :: ids). by erewrite bind_Return.
    + right. exists detail. by erewrite bind_Raise.
  - destruct (check_id_other id w Hn) as [detail Hd].
    right. exists detail. by erewrite bind_Raise.
Qed.

Lemma check_ids_ints (l : list json) w :
  Forall (λ id, is_Some (Py.as_int id)) l →
  ∃ ids, for_map l check_id w = (Return ids, w).
Proof.
  induction 1 as [|id l [n Hn] _ [ids IH]]; [by exists []|].
  exists (n :: ids). simpl.
  erewrite bind_Return by by apply check_id_int. by erewrite bind_Return.
Qed.

Lemma validate_prune_missing (prune_data : gmap string json) id w :
  Py.as_int (Py.get prune_data "id") = Some id →
  projectors w !! id = None →
  validate_prune (JDict prune_data) w
    = (Raise (does_not_exist (Py.get prune_data "id")), w).
Proof.
  intros Hid Hw. unfold validate_prune. rewrite Hid.
  erewrite bind_Return by reflexivity.
  rewrite bool_decide_false; [done|]. rewrite Hw. by intros [? ?].
Qed.

Lemma validate_prune_raises prune w e w' :
  validate_prune prune w = (Raise e, w') →
  ∃ detail, e = ValidationError detail.
Proof.
  unfold validate_prune, name_is_missing, mbind, M_bind, read, raise, mret,
    M_ret.
  intros Hrun.
  repeat match type of Hrun with
         | (Raise _, _) = (Raise _, _) => inversion Hrun; by eexists
         | (Return _, _) = (Raise _, _) => discriminate Hrun
         | context [match ?x with _ => _ end] => destruct x
         | context [bool_decide ?P] => destruct (bool_decide P)
         end.
Qed.

(** A [prune] object that fails its validation fails the request
    before the first projector is cleared. *)
Lemma project_invalid_prune (data : gmap string json) prune_data e w :
  data !! "prune" = Some (JDict prune_data) →
  validate_prune (JDict prune_data) w = (Raise e, w) →
  ∃ e',
    project (JDict data) w = (Raise e', w) ∧
    match iterate (Py.get_default data "clear_ids" (JList [])) with
    | Some ids =>
        (∃ detail, e' = ValidationError detail) ∧
        (Forall (λ id, is_Some (Py.as_int id)) ids → e' = e)
    | None => e' = TypeError
    end.
Proof.
  intros Hprune Hcheck.
  assert (Hget : Py.get data "prune" = JDict prune_data)
    by (unfold Py.get; by rewrite Hprune).
  unfold project. rewrite !Hget. simpl. fold check_id.
  destruct (iterate (Py.get_default data "clear_ids" (JList []))) as [l|].
  - destruct (check_ids_cases l w) as [[ids Hids]|[detail Hids]].
    + exists e. split.
      * erewrite bind_Return by exact Hids.
        erewrite bind_Raise; [done|]. by erewrite bind_Raise.
      * split; [|done]. by eapply validate_prune_raises.
    + exists (ValidationError detail). split.
      * by erewrite bind_Raise.
      * split; [by eexists|]. intros Hints.
        destruct (check_ids_ints l w Hints) as [ids Hids']. congruence.
  - exists TypeError. split; [|done]. by erewrite bind_Raise.
Qed.

Lemma validate_prune_nameless (prune_data : gmap string json) id w :
  Py.as_int (Py.get prune_data "id") = Some id →
  lacks_name prune_data →
  ∃ e, validate_prune (JDict prune_data) w = (Raise e, w).
Proof.
  intros Hid Hname. unfold validate_prune. rewrite Hid.
  erewrite bind_Return by reflexivity. unfold lacks_name in Hname.
  case_bool_decide; [|by eexists].
  destruct (Py.get_default prune_data "element" (JDict ∅));
    try by eexists.
  rewrite Hname. by eexists.
Qed.

(** X29.  A [project] request whose projector to prune does not
    exist, or whose element lacks a name, fails, and the database is as
    before: no projector of [clear_ids] has been cleared, nothing was
    saved and nothing announced.  Both checks come before the first
    step. *)
Theorem project_invalid_prune_clears_nothing (w : World)
    (data prune_data : gmap string json) (id : Z) :
  data !! "prune" = Some (JDict prune_data) →
  Py.as_int (Py.get prune_data "id") = Some id →
  projectors w !! id = None ∨ lacks_name prune_data →
  ∃ e, project (JDict data) w = (Raise e, w).
Proof.
  intros Hprune Hid [Hw|Hname].
  - destruct (project_invalid_prune data prune_data
                (does_not_exist (Py.get prune_data "id")) w Hprune)
      as (e & Hrun & _); [by apply (validate_prune_missing _ id)|].
    by exists e.
  - destruct (validate_prune_nameless prune_data id w Hid Hname) as [e He].
    destruct (project_invalid_prune data prune_data e w Hprune He)
      as (e' & Hrun & _).
    by exists e'.
Qed.


(** ** UpdateElements *)

Lemma update_check_run (items : list (string * json)) w :
  Forall (λ kv, UUID_hex kv.1 = true ∧ ∃ partial, kv.2 = JDict partial)
    items →
  for_map items
    (λ '(key, value),
       if UUID_hex (str (JStr key)) then
         match value with
         | JDict value => mret (key, value)
         | _ =>
             raise (ValidationError
               "Data must be a dictionary with UUIDs as keys and dictionaries as values.")
         end
       else
         raise (ValidationError
           "Data must be a dictionary with UUIDs as keys and dictionaries as values."))
    w = (Return ((λ kv, (kv.1, as_dict kv.2)) <$> items), w).
Proof.
  induction 1 as [|[key value] items Hitem _ IH]; [done|].
  simpl in Hitem. destruct Hitem as [Hkey [partial ->]].
  simpl in *. erewrite bind_Return; [|by rewrite Hkey].
  by erewrite bind_Return.
Qed.

Lemma update_loop_run (items : list (string * Element))
    (c : gmap string Element) w :
  NoDup items.*1 →
  (∀ key partial, (key, partial) ∈ items → is_Some (c !! key)) →
  ∃ c',
    for_fold items update_step c w = (Return c', w) ∧
    ∀ key, c' !! key =
             match (list_to_map items : gmap string Element) !! key with
             | Some partial => (λ element, Py.update element partial) <$> c !! key
             | None => c !! key
             end.
Proof.
  revert c. induction items as [|[k u] items IH]; intros c Hnd Hin.
  - exists c. split; [done|]. intros key. simpl. by rewrite lookup_empty.
  - rewrite fmap_cons in Hnd. apply NoDup_cons in Hnd as [Hk Hnd].
    assert (Hnone : (list_to_map items : gmap string Element) !! k = None)
      by by apply not_elem_of_list_to_map_1.
    destruct (Hin k u) as [e He]; [by left|].
    destruct (IH (<[k := Py.update e u]> c) Hnd) as (c' & Hrun & Hc').
    { intros key partial Hi. apply lookup_insert_is_Some'. right.
      apply (Hin key partial). by right. }
    exists c'. split.
    + simpl. erewrite bind_Return; [exact Hrun|]. by rewrite He.
    + intros key. rewrite Hc'. simpl.
      destruct (decide (k = key)) as [<-|Hne].
      * by rewrite Hnone, !lookup_insert_eq, He.
      * by rewrite !(lookup_insert_ne _ k key).
Qed.

Lemma update_loop_wrong (items : list (string * Element))
    (c : gmap string Element) w :
  Exists (λ item, absent c item.1) items →
  for_fold items update_step c w = (Raise wrong_uuid, w).
Proof.
  revert c. induction items as [|[k u] items IH]; intros c Hex.
  - by apply Exists_nil in Hex.
  - simpl. destruct (c !! k) as [e|] eqn:He.
    + erewrite bind_Return by reflexivity. apply IH.
      apply Exists_cons in Hex as [Hk|Hex]; [unfold absent in Hk; simpl in Hk; congruence|].
      eapply Exists_impl; [exact Hex|]. intros [k' u'] Hk'. unfold absent in *.
      simpl in *. rewrite lookup_insert_ne; [done|]. congruence.
    + by erewrite bind_Raise.
Qed.

Lemma update_elements_unfold pk (data : gmap string json) p w :
  projectors w !! pk = Some p →
  map_Forall (λ key value, UUID_hex key = true ∧ ∃ partial, value = JDict partial)
    data →
  update_elements pk (JDict data) w =
    (for_fold ((λ kv, (kv.1, as_dict kv.2)) <$> map_to_list data)
       update_step (config p)
     ≫= serializer_save pk p) w.
Proof.
  intros Hp Hdata. unfold update_elements.
  erewrite bind_Return; cycle 1.
  { apply update_check_run. apply Forall_forall. intros [key value] Hin.
    apply elem_of_map_to_list in Hin. by apply Hdata in Hin. }
  erewrite bind_Return by by apply get_object_Some. done.
Qed.

Lemma typed_items (data : gmap string json) :
  NoDup ((λ kv : string * json, (kv.1, as_dict kv.2)) <$> map_to_list data).*1 ∧
  ∀ key, (list_to_map ((λ kv : string * json, (kv.1, as_dict kv.2)) <$> map_to_list data)
            : gmap string Element) !! key = as_dict <$> data !! key.
Proof.
  assert (Hfst : ((λ kv : string * json, (kv.1, as_dict kv.2)) <$> map_to_list data).*1
                 = (map_to_list data).*1).
  { rewrite <- list_fmap_compose. by apply list_fmap_ext. }
  split.
  - rewrite Hfst. apply NoDup_fst_map_to_list.
  - intros key.
    change (λ kv : string * json, (kv.1, as_dict kv.2)) with (prod_map (@id string) as_dict).
    rewrite list_to_map_fmap, list_to_map_to_list. apply lookup_fmap.
Qed.

(** C5.  When every key of an [update_elements] request is a UUID that
    the config holds and every value is a dict, the view returns and
    stores the projector whose config has the same keys and in which
    each named element is the old one updated field by field: a field
    the partial element names has the value given there, any other
    field keeps its value. *)
Theorem update_elements_merges (w : World) (pk : Z) (p : Projector)
    (data : gmap string json) :
  projectors w !! pk = Some p →
  map_Forall (λ key value,
                UUID_hex key = true ∧
                (∃ partial, value = JDict partial) ∧
                is_Some (config p !! key)) data →
  serializer_errors (merge_updates data (config p)) = None →
  ∃ p' w',
    update_elements pk (JDict data) w = (Return p', w') ∧
    projectors w' = <[pk := p']> (projectors w) ∧
    dom (config p') = dom (config p) ∧
    (∀ key element,
       config p !! key = Some element →
       config p' !! key =
         Some match data !! key with
              | Some (JDict partial) => Py.update element partial
              | _ => element
              end) ∧
    (∀ (element partial : Element) field,
       Py.update element partial !! field =
         match partial !! field with
         | Some value => Some value
         | None => element !! field
         end).
Proof.
  intros Hp Hdata Hvalid.
  destruct (typed_items data) as [Hnd Hlookup].
  destruct (update_loop_run _ (config p) w Hnd) as (c' & Hrun & Hc').
  { intros key partial Hin.
    apply (list_elem_of_fmap_2 fst) in Hin. simpl in Hin.
    rewrite <- list_fmap_compose in Hin.
    apply list_elem_of_fmap in Hin as ([k v] & -> & Hin).
    apply elem_of_map_to_list in Hin. by apply Hdata in Hin as (_ & _ & ?). }
  assert (c' = merge_updates data (config p)) as ->.
  { apply map_eq. intros key. rewrite Hc', Hlookup.
    unfold merge_updates. rewrite map_lookup_imap.
    destruct (data !! key) as [value|] eqn:Hkey; simpl.
    - apply Hdata in Hkey as (_ & [partial ->] & [element ->]). done.
    - by destruct (config p !! key). }
  exists (set_config (merge_updates data (config p)) p).
  exists (save pk (set_config (merge_updates data (config p)) p) w).2.
  split_and!.
  - rewrite (update_elements_unfold pk data p); [|done|].
    2: { eapply map_Forall_impl; [exact Hdata|]. by intros k v (? & ? & ?). }
    erewrite bind_Return by exact Hrun.
    by apply serializer_save_valid.
  - done.
  - simpl. apply set_eq. intros key. rewrite !elem_of_dom.
    unfold merge_updates. rewrite map_lookup_imap.
    destruct (config p !! key); simpl; split; intros [? ?]; eauto; done.
  - intros key element Hkey. simpl. unfold merge_updates.
    by rewrite map_lookup_imap, Hkey.
  - intros element partial field. unfold Py.update.
    rewrite lookup_union. by destruct (partial !! field), (element !! field).
Qed.

(** ** DeactivateElements *)

Lemma uuid_check_run (items : list json) w :
  for_each items
    (λ item, if UUID_hex (str item) then mret tt else raise hex_uuids_error) w
  = (if forallb (λ item, UUID_hex (str item)) items
     then Return tt else Raise hex_uuids_error, w).
Proof.
  induction items as [|item items IH]; [done|]. simpl.
  destruct (UUID_hex (str item)); simpl.
  - by erewrite bind_Return by reflexivity.
  - by erewrite bind_Raise by reflexivity.
Qed.

Lemma uuids_checked (keys : list string) :
  Forall (λ key, UUID_hex key = true) keys →
  forallb (λ item, UUID_hex (str item)) (JStr <$> keys) = true.
Proof. induction 1 as [|k keys Hk _ IH]; [done|]. simpl. by rewrite Hk. Qed.

Lemma del_pure c key w : (del c key w).2 = w.
Proof.
  unfold del. destruct key; try done.
  by destruct (c !! s).
Qed.

Lemma del_loop_invalid (keys : list string) (c : gmap string Element) w :
  Exists (absent c) keys →
  for_fold (JStr <$> keys) del c w = (Raise invalid_uuid, w).
Proof.
  revert c. induction keys as [|k keys IH]; intros c Hex.
  - by apply Exists_nil in Hex.
  - simpl. destruct (c !! k) as [e|] eqn:He.
    + erewrite bind_Return; [|reflexivity]. apply IH.
      apply Exists_cons in Hex as [Hk|Hex]; [unfold absent in Hk; congruence|].
      eapply Exists_impl; [exact Hex|]. intros k' Hk'. unfold absent in *.
      by apply lookup_delete_None; right.
    + by erewrite bind_Raise.
Qed.

Lemma fails_clean_bind {A B} (m : M A) (f : A → M B) :
  (∀ w, (m w).2 = w) → (∀ a, fails_clean (f a)) → fails_clean (m ≫= f).
Proof.
  intros Hm Hf w e w'. unfold mbind, M_bind. specialize (Hm w).
  destruct (m w) as [[a|e0] w0]; simpl in Hm; subst.
  - apply Hf.
  - by intros [= _ <-].
Qed.

Lemma fails_clean_raise {A} e : fails_clean (raise e : M A).
Proof. by intros w e' w' [= _ <-]. Qed.

Lemma serializer_save_fails_clean pk p c : fails_clean (serializer_save pk p c).
Proof.
  intros w e w'. unfold serializer_save.
  destruct (serializer_errors c); [by intros [= _ <-]|].
  unfold mbind, M_bind, save, modify, mret, M_ret. simpl. discriminate.
Qed.

Lemma get_object_pure pk w : (get_object pk w).2 = w.
Proof.
  unfold get_object, mbind, M_bind, read. simpl.
  by destruct (projectors w !! pk).
Qed.

Lemma deactivate_elements_fails_clean pk data :
  fails_clean (deactivate_elements pk data).
Proof.
  unfold deactivate_elements.
  destruct data; try apply fails_clean_raise.
  apply fails_clean_bind.
  { intros w. apply for_each_pure. intros item w0.
    by destruct (UUID_hex (str item)). }
  intros _. apply fails_clean_bind; [apply get_object_pure|].
  intros p. apply fails_clean_bind.
  { intros w. apply for_fold_pure. intros. apply del_pure. }
  intros c. apply serializer_save_fails_clean.
Qed.

Lemma deactivate_elements_absent (w : World) (pk : Z) (p : Projector)
    (keys : list string) :
  projectors w !! pk = Some p →
  Exists (absent (config p)) keys →
  deactivate_elements pk (JList (JStr <$> keys)) w
    = (Raise (if forallb (λ item, UUID_hex (str item)) (JStr <$> keys)
              then invalid_uuid else hex_uuids_error), w).
Proof.
  intros Hp Hex. unfold deactivate_elements. fold hex_uuids_error.
  destruct (forallb (λ item, UUID_hex (str item)) (JStr <$> keys)) eqn:Hall.
  - erewrite bind_Return by by rewrite uuid_check_run, Hall.
    erewrite bind_Return by by apply get_object_Some.
    erewrite bind_Raise; [done|]. by apply del_loop_invalid.
  - erewrite bind_Raise; [done|]. by rewrite uuid_check_run, Hall.
Qed.

(** C6.  A [deactivate_elements] request that names a key the config
    of the projector does not hold fails with a validation error and
    the database is as before: nothing of the batch has been deleted,
    saved or announced.  The detail is "Invalid UUID." when every key
    of the request is a UUID.  Whatever the request, a failure leaves
    the database as it was. *)
Theorem deactivate_elements_aborts (w : World) (pk : Z) (p : Projector)
    (keys : list string) :
  projectors w !! pk = Some p →
  Exists (absent (config p)) keys →
  (∃ detail,
     deactivate_elements pk (JList (JStr <$> keys)) w
       = (Raise (ValidationError detail), w) ∧
     (Forall (λ key, UUID_hex key = true) keys → detail = "Invalid UUID.")) ∧
  (∀ data e w', deactivate_elements pk data w = (Raise e, w') → w' = w).
Proof.
  intros Hp Hex.
  split; [|intros data e w'; apply deactivate_elements_fails_clean].
  rewrite (deactivate_elements_absent w pk p keys Hp Hex).
  destruct (forallb (λ item, UUID_hex (str item)) (JStr <$> keys)) eqn:Hall.
  - by exists "Invalid UUID.".
  - eexists. split; [done|].
    intros Hkeys. rewrite uuids_checked in Hall by done. discriminate.
Qed.

(** C9.  The key check of [update_elements] and [deactivate_elements]
    is [uuid.UUID(hex=...)] itself: whatever string that constructor
    accepts passes, in whichever form it is written.  A request all of
    whose keys pass (and, for [update_elements], all of whose values
    are dicts) and one of whose keys the config does not hold comes to
    the lookup and fails there, with "Wrong UUID." and "Invalid UUID."
    respectively, not with the error of malformed data; the database
    is as before.  With a constructor that accepts what CPython's
    does, the keys that pass include 32 digits of base 16 written bare,
    with hyphens, in braces and as a URN. *)
Theorem parseable_key_fails_lookup (w : World) (pk : Z) (p : Projector) :
  projectors w !! pk = Some p →
  (∀ data : gmap string json,
     map_Forall (λ key value,
                   UUID_hex key = true ∧ ∃ partial, value = JDict partial)
       data →
     (∃ key, is_Some (data !! key) ∧ absent (config p) key) →
     update_elements pk (JDict data) w = (Raise wrong_uuid, w)) ∧
  (∀ keys : list string,
     Forall (λ key, UUID_hex key = true) keys →
     Exists (absent (config p)) keys →
     deactivate_elements pk (JList (JStr <$> keys)) w
       = (Raise invalid_uuid, w)) ∧
  ((∀ s, CPython.UUID s = true → UUID_hex s = true) →
   ∀ a b c d e,
     CPython.xdigits 8 a → CPython.xdigits 4 b → CPython.xdigits 4 c →
     CPython.xdigits 4 d → CPython.xdigits 12 e →
     Forall (λ key, UUID_hex key = true) (CPython.forms a b c d e)).
Proof.
  intros Hp. split_and!.
  - intros data Hdata (key & [value Hkey] & Habsent).
    rewrite (update_elements_unfold pk data p) by done.
    erewrite bind_Raise; [done|]. apply update_loop_wrong.
    apply Exists_exists. exists (key, as_dict value). split; [|done].
    apply list_elem_of_fmap. exists (key, value). split; [done|].
    by apply elem_of_map_to_list.
  - intros keys Hkeys Hex.
    rewrite (deactivate_elements_absent w pk p keys Hp Hex).
    by rewrite uuids_checked.
  - intros Hparser a b c d e Ha Hb Hc Hd He.
    eapply Forall_impl; [by apply CPythonFacts.UUID_forms|]. apply Hparser.
Qed.

(** ** Destroy *)

Lemma reassign_rows_run (id : Z) (rows : list (Z * ProjectionDefault)) w :
  NoDup rows.*1 →
  (∀ pk d, (pk, d) ∈ rows → projectiondefaults w !! pk = Some d) →
  ∃ w',
    for_each rows
      (λ '(pk, projection_default),
         if bool_decide (projector_id projection_default = id) then
           save_projection_default pk (set_projector_id 1 projection_default)
         else mret tt) w = (Return tt, w') ∧
    projectors w' = projectors w ∧
    projector_broadcast w' = projector_broadcast w ∧
    ∀ pk, projectiondefaults w' !! pk =
            match (list_to_map rows : gmap Z ProjectionDefault) !! pk with
            | Some d => Some (reassigned id d)
            | None => projectiondefaults w !! pk
            end.
Proof.
  revert w. induction rows as [|[pk0 d0] rows IH]; intros w Hnd Hrows.
  - exists w. split_and!; [done..|]. intros pk. simpl. by rewrite lookup_empty.
  - rewrite fmap_cons in Hnd. apply NoDup_cons in Hnd as [Hpk0 Hnd].
    assert (Hnone : (list_to_map rows : gmap Z ProjectionDefault) !! pk0 = None)
      by by apply not_elem_of_list_to_map_1.
    assert (Hd0 : projectiondefaults w !! pk0 = Some d0)
      by (apply Hrows; by left).
    simpl. unfold reassigned. case_bool_decide as Hid.
    + destruct (IH (save_projection_default pk0 (set_projector_id 1 d0) w).2 Hnd)
        as (w' & Hrun & Hp & Hb & Hw').
      { intros pk d Hin. unfold save_projection_default, modify. simpl.
        rewrite lookup_insert_ne; [apply Hrows; by right|].
        intros <-. apply Hpk0. by apply (list_elem_of_fmap_2 fst _ (pk0, d)). }
      exists w'. split_and!; [|done..|].
      * by erewrite bind_Return by reflexivity.
      * intros pk. rewrite Hw'. unfold save_projection_default, modify. simpl.
        destruct (decide (pk0 = pk)) as [->|Hne].
        -- rewrite Hnone, !lookup_insert_eq. by rewrite bool_decide_true.
        -- by rewrite !(lookup_insert_ne _ pk0 pk).
    + destruct (IH w Hnd) as (w' & Hrun & Hp & Hb & Hw').
      { intros pk d Hin. apply Hrows. by right. }
      exists w'. split_and!; [|done..|].
      * by erewrite bind_Return by reflexivity.
      * intros pk. rewrite Hw'.
        destruct (decide (pk0 = pk)) as [->|Hne].
        -- rewrite Hnone, lookup_insert_eq. by rewrite bool_decide_false.
        -- by rewrite (lookup_insert_ne _ pk0 pk).
Qed.

Lemma reassign_run (id : Z) w :
  ∃ w',
    reassign_projection_defaults id w = (Return tt, w') ∧
    projectors w' = projectors w ∧
    projector_broadcast w' = projector_broadcast w ∧
    projectiondefaults w' = reassigned id <$> projectiondefaults w.
Proof.
  destruct (reassign_rows_run id (map_to_list (projectiondefaults w)) w)
    as (w' & Hrun & Hp & Hb & Hw').
  { apply NoDup_fst_map_to_list. }
  { intros pk d. apply elem_of_map_to_list. }
  exists w'. split_and!; [|done..|].
  - unfold reassign_projection_defaults. by erewrite bind_Return by reflexivity.
  - apply map_eq. intros pk.
    rewrite Hw', list_to_map_to_list, lookup_fmap.
    by destruct (projectiondefaults w !! pk).
Qed.

Lemma destroy_run (w : World) (pk : Z) (p : Projector) :
  projectors w !! pk = Some p →
  ∃ w',
    destroy pk w = (Return tt, w') ∧
    projectors w' = delete pk (projectors w) ∧
    projectiondefaults w' =
      filter (λ row, projector_id row.2 ≠ pk)
             (reassigned pk <$> projectiondefaults w) ∧
    projector_broadcast w' =
      if bool_decide (projector_broadcast w = pk) then 0
      else projector_broadcast w.
Proof.
  intros Hw.
  destruct (reassign_run pk w) as (w1 & Hrun & Hp & Hb & Hd).
  unfold destroy.
  erewrite bind_Return by by apply get_object_Some.
  erewrite bind_Return by exact Hrun.
  erewrite bind_Return by reflexivity.
  rewrite Hb. unfold super_destroy. case_bool_decide.
  - erewrite bind_Return by reflexivity.
    erewrite bind_Return; cycle 1.
    { apply get_object_Some. simpl. by rewrite Hp. }
    eexists. split; [reflexivity|]. simpl. by rewrite Hp, Hd.
  - erewrite bind_Return by reflexivity.
    erewrite bind_Return; cycle 1.
    { apply get_object_Some. by rewrite Hp. }
    eexists. split; [reflexivity|]. simpl. by rewrite Hp, Hd, Hb.
Qed.

(** What [destroy] leaves of the projection defaults, row by row: a
    row that referred to another projector stays; one that referred to
    the destroyed projector refers to projector 1, unless that is the
    destroyed one, with which it goes. *)
Lemma destroy_rows (w w' : World) (pk : Z) :
  projectiondefaults w' =
    filter (λ row, projector_id row.2 ≠ pk)
           (reassigned pk <$> projectiondefaults w) →
  ∀ k, projectiondefaults w' !! k =
         match projectiondefaults w !! k with
         | Some d =>
             if bool_decide (projector_id d = pk)
             then (if bool_decide (pk = 1) then None
                   else Some (set_projector_id 1 d))
             else Some d
         | None => None
         end.
Proof.
  intros -> k. rewrite map_lookup_filter, lookup_fmap.
  destruct (projectiondefaults w !! k) as [d|]; [|done]. simpl.
  unfold reassigned. case_bool_decide as Hid.
  - case_bool_decide as Hpk.
    + rewrite option_guard_False; [done|]. destruct d. simpl in *. congruence.
    + rewrite option_guard_True; [done|]. destruct d. simpl. congruence.
  - by rewrite option_guard_True.
Qed.



End properties.

(** ** Further properties of the projector views *)

Section more_properties.
Context `{Externals}.

#[local] Arguments O_bind : simpl never.
#[local] Arguments O_ret : simpl never.

Lemma O_bind_Return {A B} (m : O A) (f : A → O B) w a w' :
  m w = (Answer (Return a), w') → (m ≫= f) w = f a w'.
Proof. intros E. unfold mbind, O_bind. by rewrite E. Qed.

Lemma O_bind_Raise {A B} (m : O A) (f : A → O B) w e w' :
  m w = (Answer (Raise e), w') → (m ≫= f) w = (Answer (Raise e), w').
Proof. intros E. unfold mbind, O_bind. by rewrite E. Qed.

Lemma O_bind_AttributeError {A B} (m : O A) (f : A → O B) w w' :
  m w = (AttributeError, w') → (m ≫= f) w = (AttributeError, w').
Proof. intros E. unfold mbind, O_bind. by rewrite E. Qed.

Lemma answer_run {A} (m : M A) w r w' :
  m w = (r, w') → answer m w = (Answer r, w').
Proof. intros E. unfold answer. by rewrite E. Qed.

(** *** ActivateElements *)

Lemma activate_loop_run (elements : list Element) (c : gmap string Element) w :
  Forall named elements →
  activate_loop (JDict <$> elements) c w =
    (Answer (Return (foldl (λ c kv, <[kv.1 := kv.2]> c) c
                       (zip (drawn w (length elements)) elements))),
     after_draws (length elements) w).
Proof.
  intros Hnamed. revert c w.
  induction Hnamed as [|e es He _ IH]; intros c w.
  - unfold after_draws. destruct w. simpl. by rewrite Nat.add_0_r.
  - simpl. unfold named in He. rewrite He.
    erewrite O_bind_Return by (apply answer_run; reflexivity).
    rewrite IH. f_equal.
    + do 2 f_equal. unfold drawn. simpl. rewrite Nat.add_0_r. f_equal.
      f_equal. rewrite <- fmap_S_seq, <- list_fmap_compose.
      apply list_fmap_ext. intros ? i ?. simpl. f_equal. lia.
    + unfold after_draws. simpl. f_equal. lia.
Qed.

(** Whatever the loop meets, it only draws keys. *)
Lemma activate_loop_same_database elements c w :
  same_database w (activate_loop elements c w).2.
Proof.
  revert c w. induction elements as [|e es IH]; intros c w; [done|].
  simpl. destruct e; try done.
  destruct (Py.is_None (Py.get d "name")); [done|].
  unfold mbind, O_bind, answer, uuid4. simpl.
  destruct (IH (<[uuid4_hex (uuid4_calls w) := d]> c)
              (mkWorld (projectors w) (projectiondefaults w)
                 (projector_broadcast w) (S (uuid4_calls w)) (informed w)))
    as (? & ? & ? & ?).
  done.
Qed.


(** The config [activate_elements] builds from [c] for [elements]. *)
Lemma activate_elements_run (w : World) (pk : Z) (p : Projector)
    (elements : list Element) (c' : gmap string Element) :
  projectors w !! pk = Some p →
  Forall named elements →
  foldl (λ c kv, <[kv.1 := kv.2]> c) (config p)
    (zip (drawn w (length elements)) elements) = c' →
  serializer_errors c' = None →
  activate_elements pk (JList (JDict <$> elements)) w
    = (Answer (Return (set_config c' p)),
       (save pk (set_config c' p) (after_draws (length elements) w)).2).
Proof.
  intros Hp Hnamed Hc Hvalid. unfold activate_elements.
  erewrite O_bind_Return by by apply answer_run, get_object_Some.
  erewrite O_bind_Return by by apply activate_loop_run.
  rewrite Hc. apply answer_run. by apply serializer_save_valid.
Qed.

(** With fresh keys the new entries lie beside the old ones. *)
Lemma fresh_entries (c : gmap string Element) (keys : list string)
    (elements : list Element) :
  length keys = length elements →
  NoDup keys →
  Forall (absent c) keys →
  (zip keys elements).*1 = keys ∧
  c ##ₘ list_to_map (zip keys elements) ∧
  foldl (λ c kv, <[kv.1 := kv.2]> c) c (zip keys elements)
    = c ∪ list_to_map (zip keys elements).
Proof.
  intros Hlen Hnd Hfresh.
  assert (Hfst : (zip keys elements).*1 = keys) by by apply fst_zip; lia.
  assert (Hdisj : c ##ₘ list_to_map (zip keys elements)).
  { apply map_disjoint_spec. intros k e1 e2 Hk1 Hk2.
    apply elem_of_list_to_map_2, (list_elem_of_fmap_2 fst) in Hk2.
    rewrite Hfst in Hk2. simpl in Hk2.
    rewrite Forall_forall in Hfresh. specialize (Hfresh _ Hk2).
    unfold absent in Hfresh. congruence. }
  split_and!; [done..|].
  rewrite foldl_insert_union by by rewrite Hfst. by apply map_union_comm.
Qed.

(** X1.  [activate_elements] on a list of named elements returns and
    stores the projector whose config holds every old entry as it was
    and, under the key drawn for it, each new element; nothing is
    discarded and the other fields, scroll among them, stay.  The
    drawn keys are taken to be fresh. *)
Theorem activate_elements_adds (w : World) (pk : Z) (p : Projector)
    (elements : list Element) :
  let keys := drawn w (length elements) in
  let fresh : gmap string Element := list_to_map (zip keys elements) in
  projectors w !! pk = Some p →
  Forall named elements →
  NoDup keys →
  Forall (absent (config p)) keys →
  serializer_errors (config p ∪ fresh) = None →
  ∃ w',
    activate_elements pk (JList (JDict <$> elements)) w
      = (Answer (Return (set_config (config p ∪ fresh) p)), w') ∧
    projectors w' = <[pk := set_config (config p ∪ fresh) p]> (projectors w) ∧
    config p ##ₘ fresh ∧
    (∀ key element,
       config p !! key = Some element →
       (config p ∪ fresh) !! key = Some element) ∧
    (∀ i key element,
       keys !! i = Some key → elements !! i = Some element →
       (config p ∪ fresh) !! key = Some element) ∧
    size (config p ∪ fresh) = (size (config p) + length elements)%nat.
Proof.
  intros keys fresh Hp Hnamed Hnd Hfresh Hvalid.
  assert (Hlen : length keys = length elements) by apply drawn_length.
  destruct (fresh_entries (config p) keys elements Hlen Hnd Hfresh)
    as (Hfst & Hdisj & Hc).
  eexists. split_and!.
  - by apply activate_elements_run.
  - done.
  - done.
  - intros key element Hkey. by apply lookup_union_Some_l.
  - intros i key element Hi He.
    apply lookup_union_Some_raw.
    destruct (config p !! key) eqn:Hk.
    { exfalso. rewrite Forall_forall in Hfresh.
      assert (key ∈ keys) as Hin by by eapply list_elem_of_lookup_2.
      specialize (Hfresh _ Hin). unfold absent in Hfresh. congruence. }
    right. split; [done|].
    apply elem_of_list_to_map_1; [by rewrite Hfst|].
    apply list_elem_of_lookup. exists i. by apply lookup_zip_Some.
  - rewrite map_size_disj_union by done. f_equal.
    unfold fresh. rewrite map_size_list_to_map by by rewrite Hfst.
    rewrite length_zip. lia.
Qed.

Lemma serializer_save_same_database pk p c w e w' :
  serializer_save pk p c w = (Raise e, w') → w' = w.
Proof. apply serializer_save_fails_clean. Qed.

(** X2.  [activate_elements] is all or nothing: unless it returns, no
    table, setting or autoupdate message has changed, whatever the
    request; the elements put in before the failing one are lost with
    the copy of the config they were put into. *)
Theorem activate_elements_all_or_nothing (pk : Z) (data : json) (w : World)
    (o : outcome Projector) (w' : World) :
  activate_elements pk data w = (o, w') →
  (∀ p', o ≠ Answer (Return p')) →
  same_database w w'.
Proof.
  unfold activate_elements. destruct data; try by intros [= <- <-].
  unfold mbind, O_bind, answer.
  pose proof (get_object_pure pk w) as Hpure.
  destruct (get_object pk w) as [[p|e] w1]; simpl in Hpure; subst w1;
    [|by intros [= <- <-]].
  pose proof (activate_loop_same_database l (config p) w) as Hloop.
  destruct (activate_loop l (config p) w) as [[[c|e]|] w1]; simpl in Hloop;
    try by intros [= <- <-].
  destruct (serializer_save pk p c w1) as [[p'|e] w2] eqn:Hsave.
  - intros [= <- <-] Hfail. by destruct (Hfail p').
  - apply serializer_save_same_database in Hsave as ->. by intros [= <- <-].
Qed.

(** X3.  The two views that take a list of elements differ on an
    element that is no dict: [prune_elements] checks and answers with a
    validation error, [activate_elements] calls [.get] on it and ends
    in [AttributeError]. *)
Theorem activate_elements_unchecked_element (w : World) (pk : Z)
    (p : Projector) (before : list Element) (element : json)
    (after : list json) :
  projectors w !! pk = Some p →
  Forall named before →
  (∀ d, element ≠ JDict d) →
  (activate_elements pk (JList ((JDict <$> before) ++ element :: after)) w).1
    = AttributeError ∧
  prune_elements pk (JList ((JDict <$> before) ++ element :: after)) w
    = (Raise (ValidationError "All elements have to be dicts."), w).
Proof.
  intros Hp Hnamed Helement. split.
  - unfold activate_elements.
    erewrite O_bind_Return by by apply answer_run, get_object_Some.
    assert (∀ c w0, (activate_loop ((JDict <$> before) ++ element :: after) c w0).1
                    = AttributeError) as Hloop.
    { induction Hnamed as [|e es He _ IH]; intros c w0.
      - simpl. destruct element; try done. by destruct (Helement d).
      - simpl. unfold named in He. rewrite He.
        erewrite O_bind_Return by (apply answer_run; reflexivity). apply IH. }
    specialize (Hloop (config p) w). unfold mbind, O_bind.
    by destruct (activate_loop _ _ w) as [[[c|e]|] w1].
  - unfold prune_elements.
    erewrite bind_Return by by apply get_object_Some.
    erewrite bind_Raise; [done|].
    induction Hnamed as [|e es He _ IH].
    + simpl. erewrite bind_Raise; [done|].
      destruct element; try done. by destruct (Helement d).
    + simpl. unfold named in He. rewrite He.
      erewrite bind_Return by reflexivity. by erewrite bind_Raise.
Qed.


(** *** ClearElements and DeactivateElements *)

Lemma clear_elements_run pk p w :
  projectors w !! pk = Some p →
  serializer_errors (stable_entries (config p)) = None →
  clear_elements pk w =
    (Return (set_config (stable_entries (config p)) p),
     (save pk (set_config (stable_entries (config p)) p) w).2).
Proof.
  intros Hp Hvalid. unfold clear_elements.
  erewrite bind_Return by by apply get_object_Some. by apply clear_run.
Qed.

Lemma stable_entries_idemp (c : gmap string Element) :
  stable_entries (stable_entries c) = stable_entries c.
Proof.
  unfold stable_entries. apply map_filter_id.
  by intros k e [_ He]%map_lookup_filter_Some.
Qed.

Lemma stable_entries_union (c1 c2 : gmap string Element) :
  c1 ##ₘ c2 →
  stable_entries (c1 ∪ c2) = stable_entries c1 ∪ stable_entries c2.
Proof. intros Hdisj. unfold stable_entries. by apply map_filter_union. Qed.

Lemma stable_entries_none (l : list (string * Element)) :
  Forall (λ kv, stable kv.2 = false) l →
  stable_entries (list_to_map l) = ∅.
Proof.
  intros Hl. unfold stable_entries. apply map_eq. intros k.
  rewrite lookup_empty. apply map_lookup_filter_None.
  destruct (list_to_map l !! k) as [e|] eqn:Hk; [right|by left].
  intros e' [= <-]. apply elem_of_list_to_map_2 in Hk.
  rewrite Forall_forall in Hl. specialize (Hl _ Hk). simpl in *. congruence.
Qed.


(** X4.  What [activate_elements] adds, [clear_elements] takes away
    again: after elements that are not stable have been activated,
    clearing answers with the config that clearing at once would have
    answered with, the stable entries of the old one. *)
Theorem clear_after_activate (w : World) (pk : Z) (p : Projector)
    (elements : list Element) :
  let keys := drawn w (length elements) in
  let fresh : gmap string Element := list_to_map (zip keys elements) in
  projectors w !! pk = Some p →
  Forall named elements →
  Forall (λ element, stable element = false) elements →
  NoDup keys →
  Forall (absent (config p)) keys →
  serializer_errors (config p ∪ fresh) = None →
  serializer_errors (stable_entries (config p)) = None →
  ∃ p1 w1 p2 w2,
    activate_elements pk (JList (JDict <$> elements)) w
      = (Answer (Return p1), w1) ∧
    clear_elements pk w1 = (Return p2, w2) ∧
    config p2 = stable_entries (config p) ∧
    config <$> (clear_elements pk w).1 = Return (config p2).
Proof.
  intros keys fresh Hp Hnamed Hunstable Hnd Hfresh Hvalid1 Hvalid2.
  assert (Hlen : length keys = length elements) by apply drawn_length.
  destruct (fresh_entries (config p) keys elements Hlen Hnd Hfresh)
    as (Hfst & Hdisj & Hc).
  assert (Hcleared : stable_entries (config p ∪ fresh) = stable_entries (config p)).
  { rewrite stable_entries_union by done. unfold fresh.
    rewrite stable_entries_none; [by rewrite (right_id_L ∅ (∪))|].
    apply Forall_forall. intros [k e] Hin.
    apply (list_elem_of_fmap_2 snd) in Hin. simpl in *.
    rewrite snd_zip in Hin by lia.
    rewrite Forall_forall in Hunstable. by apply Hunstable. }
  set (p1 := set_config (config p ∪ fresh) p).
  set (w1 := (save pk p1 (after_draws (length elements) w)).2).
  exists p1, w1, (set_config (stable_entries (config p1)) p1),
    (save pk (set_config (stable_entries (config p1)) p1) w1).2.
  assert (Hp1 : projectors w1 !! pk = Some p1) by apply lookup_insert_eq.
  split_and!.
  - by apply activate_elements_run.
  - apply clear_elements_run; [done|]. simpl. by rewrite Hcleared.
  - simpl. by rewrite Hcleared.
  - rewrite (clear_elements_run pk p w) by done. simpl. by rewrite Hcleared.
Qed.

(** X5.  Clearing twice is clearing once: the second [clear_elements]
    answers with the projector the first one answered with and leaves
    the table of projectors as the first one left it. *)
Theorem clear_elements_idempotent (w : World) (pk : Z) (p : Projector) :
  projectors w !! pk = Some p →
  serializer_errors (stable_entries (config p)) = None →
  ∃ p1 w1 w2,
    clear_elements pk w = (Return p1, w1) ∧
    clear_elements pk w1 = (Return p1, w2) ∧
    projectors w2 = projectors w1.
Proof.
  intros Hp Hvalid.
  set (p1 := set_config (stable_entries (config p)) p).
  set (w1 := (save pk p1 w).2).
  assert (Hp1 : projectors w1 !! pk = Some p1) by apply lookup_insert_eq.
  assert (Hsame : set_config (stable_entries (config p1)) p1 = p1).
  { unfold p1, set_config. simpl. by rewrite stable_entries_idemp. }
  exists p1, w1, (save pk p1 w1).2. split_and!.
  - by apply clear_elements_run.
  - rewrite (clear_elements_run pk p1 w1); [by rewrite Hsame|done|].
    simpl. by rewrite stable_entries_idemp.
  - simpl. by rewrite insert_insert_eq.
Qed.


Lemma without_cons (k : string) (keys : list string) (c : gmap string Element) :
  without (k :: keys) c = without keys (delete k c).
Proof.
  unfold without. apply map_eq. intros i.
  destruct (filter (λ kv : string * Element, kv.1 ∉ keys) (delete k c) !! i)
    as [e|] eqn:Hi.
  - apply map_lookup_filter_Some in Hi as [Hi Hnot]. simpl in Hnot.
    apply lookup_delete_Some in Hi as [Hne Hi].
    apply map_lookup_filter_Some. split; [done|]. simpl.
    rewrite not_elem_of_cons. by split.
  - apply map_lookup_filter_None. apply map_lookup_filter_None in Hi.
    destruct (c !! i) as [e|] eqn:Hc; [right|by left].
    intros e' [= <-]. simpl. intros Hnot.
    apply not_elem_of_cons in Hnot as [Hne Hnot].
    destruct Hi as [Hi|Hi].
    + rewrite lookup_delete_ne in Hi by done. congruence.
    + apply (Hi e); [by rewrite lookup_delete_ne|done].
Qed.

Lemma without_lookup (keys : list string) (c : gmap string Element) k :
  without keys c !! k = if bool_decide (k ∈ keys) then None else c !! k.
Proof.
  unfold without. case_bool_decide as Hin.
  - apply map_lookup_filter_None. destruct (c !! k); [right|by left].
    intros e' _. simpl. by intros Hnot.
  - destruct (c !! k) as [e|] eqn:Hc.
    + by apply map_lookup_filter_Some.
    + apply map_lookup_filter_None. by left.
Qed.

(** The loop of [deactivate_elements] over keys that are distinct and
    all in the config. *)
Lemma del_loop_run (keys : list string) (c : gmap string Element) w :
  NoDup keys →
  Forall (λ key, is_Some (c !! key)) keys →
  for_fold (JStr <$> keys) del c w = (Return (without keys c), w).
Proof.
  revert c. induction keys as [|k keys IH]; intros c Hnd Hin.
  - simpl. unfold without. rewrite map_filter_id; [done|].
    intros i e _. simpl. apply not_elem_of_nil.
  - apply NoDup_cons in Hnd as [Hk Hnd].
    apply Forall_cons in Hin as [[e He] Hin].
    simpl. rewrite He. erewrite bind_Return by reflexivity.
    rewrite without_cons. apply IH; [done|].
    apply Forall_forall. intros k' Hk'. rewrite Forall_forall in Hin.
    rewrite lookup_delete_ne; [by apply Hin|]. by intros <-.
Qed.

(** A key that occurs twice is gone when the loop comes to it again. *)
Lemma del_loop_duplicate (keys : list string) (c : gmap string Element) w :
  ¬ NoDup keys →
  for_fold (JStr <$> keys) del c w = (Raise invalid_uuid, w).
Proof.
  revert c. induction keys as [|k keys IH]; intros c Hdup.
  - destruct Hdup. constructor.
  - simpl. destruct (c !! k) as [e|] eqn:He; [|by erewrite bind_Raise].
    erewrite bind_Return by reflexivity.
    destruct (decide (k ∈ keys)) as [Hin|Hnotin].
    + apply del_loop_invalid. apply Exists_exists. exists k. split; [done|].
      unfold absent. apply lookup_delete_eq.
    + apply IH. intros Hnd. apply Hdup. by constructor.
Qed.

(** X6.  [deactivate_elements] on keys that are UUIDs, distinct and all
    in the config returns and stores the projector whose config is the
    old one without those keys: the named entries are gone, every other
    entry is as it was. *)
Theorem deactivate_elements_removes (w : World) (pk : Z) (p : Projector)
    (keys : list string) :
  projectors w !! pk = Some p →
  Forall (λ key, UUID_hex key = true) keys →
  NoDup keys →
  Forall (λ key, is_Some (config p !! key)) keys →
  serializer_errors (without keys (config p)) = None →
  ∃ p' w',
    deactivate_elements pk (JList (JStr <$> keys)) w = (Return p', w') ∧
    projectors w' = <[pk := p']> (projectors w) ∧
    (∀ key, key ∈ keys → config p' !! key = None) ∧
    (∀ key, key ∉ keys → config p' !! key = config p !! key) ∧
    scroll p' = scroll p.
Proof.
  intros Hp Hkeys Hnd Hin Hvalid.
  exists (set_config (without keys (config p)) p).
  exists (save pk (set_config (without keys (config p)) p) w).2.
  split_and!; [|done| | |done].
  - unfold deactivate_elements.
    erewrite bind_Return; cycle 1.
    { pose proof (uuid_check_run (JStr <$> keys) w) as Hrun.
      unfold hex_uuids_error in Hrun. rewrite Hrun.
      by rewrite uuids_checked. }
    erewrite bind_Return by by apply get_object_Some.
    erewrite bind_Return by by apply del_loop_run.
    by apply serializer_save_valid.
  - intros key Hkey. simpl. rewrite without_lookup.
    by rewrite bool_decide_true.
  - intros key Hkey. simpl. rewrite without_lookup.
    by rewrite bool_decide_false.
Qed.

(** X7.  A key that is named twice makes [deactivate_elements] fail,
    although the config holds it: at its second turn the copy of the
    config no longer has it.  The answer is "Invalid UUID." and the
    database is as before. *)
Theorem deactivate_elements_duplicate (w : World) (pk : Z) (p : Projector)
    (keys : list string) :
  projectors w !! pk = Some p →
  Forall (λ key, UUID_hex key = true) keys →
  ¬ NoDup keys →
  deactivate_elements pk (JList (JStr <$> keys)) w = (Raise invalid_uuid, w).
Proof.
  intros Hp Hkeys Hdup. unfold deactivate_elements.
  erewrite bind_Return; cycle 1.
  { pose proof (uuid_check_run (JStr <$> keys) w) as Hrun.
    unfold hex_uuids_error in Hrun. rewrite Hrun.
    by rewrite uuids_checked. }
  erewrite bind_Return by by apply get_object_Some.
  erewrite bind_Raise; [done|]. by apply del_loop_duplicate.
Qed.


(** X8.  Deactivating the keys that [activate_elements] has just drawn
    undoes it: the projector has its old config again.  The drawn keys
    are taken to be fresh and, as every value of [uuid4().hex] is, to
    be UUIDs. *)
Theorem activate_deactivate_round_trip (w : World) (pk : Z) (p : Projector)
    (elements : list Element) :
  let keys := drawn w (length elements) in
  let fresh : gmap string Element := list_to_map (zip keys elements) in
  projectors w !! pk = Some p →
  Forall named elements →
  NoDup keys →
  Forall (absent (config p)) keys →
  Forall (λ key, UUID_hex key = true) keys →
  serializer_errors (config p ∪ fresh) = None →
  serializer_errors (config p) = None →
  ∃ p1 w1 w2,
    activate_elements pk (JList (JDict <$> elements)) w
      = (Answer (Return p1), w1) ∧
    deactivate_elements pk (JList (JStr <$> keys)) w1 = (Return p, w2) ∧
    projectors w2 = projectors w.
Proof.
  intros keys fresh Hp Hnamed Hnd Hfresh Hkeys Hvalid1 Hvalid2.
  assert (Hlen : length keys = length elements) by apply drawn_length.
  destruct (fresh_entries (config p) keys elements Hlen Hnd Hfresh)
    as (Hfst & Hdisj & Hc).
  set (p1 := set_config (config p ∪ fresh) p).
  set (w1 := (save pk p1 (after_draws (length elements) w)).2).
  assert (Hp1 : projectors w1 !! pk = Some p1) by apply lookup_insert_eq.
  assert (Hback : without keys (config p ∪ fresh) = config p).
  { apply map_eq. intros k. rewrite without_lookup. case_bool_decide as Hin.
    - rewrite Forall_forall in Hfresh. symmetry. by apply Hfresh.
    - apply lookup_union_l. apply not_elem_of_list_to_map_1. by rewrite Hfst. }
  assert (Hp2 : set_config (without keys (config p1)) p1 = p).
  { unfold p1. simpl. rewrite Hback. by destruct p. }
  exists p1, w1, (save pk p w1).2. split_and!.
  - by apply activate_elements_run.
  - unfold deactivate_elements.
    erewrite bind_Return; cycle 1.
    { pose proof (uuid_check_run (JStr <$> keys) w1) as Hrun.
      unfold hex_uuids_error in Hrun. rewrite Hrun.
      by rewrite uuids_checked. }
    erewrite bind_Return by by apply get_object_Some.
    erewrite bind_Return; cycle 1.
    { apply del_loop_run; [done|]. apply Forall_forall. intros k Hin. simpl.
      apply lookup_union_is_Some. right.
      destruct (fresh !! k) eqn:Hk; [done|].
      apply not_elem_of_list_to_map_2 in Hk. by rewrite Hfst in Hk. }
    rewrite serializer_save_valid by (simpl; by rewrite Hback).
    by rewrite Hp2.
  - simpl. rewrite insert_insert_eq. by apply insert_id.
Qed.

(** *** UpdateElements *)

Lemma update_elements_run (w : World) (pk : Z) (p : Projector)
    (data : gmap string json) :
  projectors w !! pk = Some p →
  map_Forall (λ key value,
                UUID_hex key = true ∧
                (∃ partial, value = JDict partial) ∧
                is_Some (config p !! key)) data →
  serializer_errors (merge_updates data (config p)) = None →
  update_elements pk (JDict data) w =
    (Return (set_config (merge_updates data (config p)) p),
     (save pk (set_config (merge_updates data (config p)) p) w).2).
Proof.
  intros Hp Hdata Hvalid.
  destruct (typed_items data) as [Hnd Hlookup].
  destruct (update_loop_run _ (config p) w Hnd) as (c' & Hrun & Hc').
  { intros key partial Hin.
    apply (list_elem_of_fmap_2 fst) in Hin. simpl in Hin.
    rewrite <- list_fmap_compose in Hin.
    apply list_elem_of_fmap in Hin as ([k v] & -> & Hin).
    apply elem_of_map_to_list in Hin. by apply Hdata in Hin as (_ & _ & ?). }
  assert (c' = merge_updates data (config p)) as ->.
  { apply map_eq. intros key. rewrite Hc', Hlookup.
    unfold merge_updates. rewrite map_lookup_imap.
    destruct (data !! key) as [value|] eqn:Hkey; simpl.
    - apply Hdata in Hkey as (_ & [partial ->] & [element ->]). done.
    - by destruct (config p !! key). }
  rewrite (update_elements_unfold pk data p); [|done|].
  2: { eapply map_Forall_impl; [exact Hdata|]. by intros k v (? & ? & ?). }
  erewrite bind_Return by exact Hrun.
  by apply serializer_save_valid.
Qed.

Lemma merge_updates_idemp (data : gmap string json) (c : gmap string Element) :
  merge_updates data (merge_updates data c) = merge_updates data c.
Proof.
  unfold merge_updates. apply map_eq. intros key.
  rewrite !map_lookup_imap. destruct (c !! key) as [element|]; [|done].
  simpl. destruct (data !! key) as [[]|]; try done.
  unfold Py.update. by rewrite (assoc_L (∪)), (idemp_L (∪)).
Qed.

(** X9.  An update that is applied again changes nothing: the second
    [update_elements] with the same data answers with the projector
    the first one answered with and leaves the table of projectors as
    the first one left it. *)
Theorem update_elements_idempotent (w : World) (pk : Z) (p : Projector)
    (data : gmap string json) :
  projectors w !! pk = Some p →
  map_Forall (λ key value,
                UUID_hex key = true ∧
                (∃ partial, value = JDict partial) ∧
                is_Some (config p !! key)) data →
  serializer_errors (merge_updates data (config p)) = None →
  ∃ p1 w1 w2,
    update_elements pk (JDict data) w = (Return p1, w1) ∧
    update_elements pk (JDict data) w1 = (Return p1, w2) ∧
    projectors w2 = projectors w1.
Proof.
  intros Hp Hdata Hvalid.
  set (p1 := set_config (merge_updates data (config p)) p).
  set (w1 := (save pk p1 w).2).
  assert (Hp1 : projectors w1 !! pk = Some p1) by apply lookup_insert_eq.
  assert (Hsame : set_config (merge_updates data (config p1)) p1 = p1).
  { unfold p1, set_config. simpl. by rewrite merge_updates_idemp. }
  exists p1, w1, (save pk p1 w1).2. split_and!.
  - by apply update_elements_run.
  - rewrite (update_elements_run w1 pk p1 data); [by rewrite Hsame|done| |].
    + eapply map_Forall_impl; [exact Hdata|].
      intros k v (? & ? & [e He]). split_and!; [done..|].
      simpl. unfold merge_updates. rewrite map_lookup_imap, He. by eexists.
    + simpl. by rewrite merge_updates_idemp.
  - simpl. by rewrite insert_insert_eq.
Qed.


(** *** Project *)

Lemma for_each_preserves {A B} (f : World → B) (body : A → M unit)
    (xs : list A) w :
  (∀ x w0, f (body x w0).2 = f w0) → f (for_each xs body w).2 = f w.
Proof.
  intros Hbody. revert w. induction xs as [|x xs IH]; intros w; [done|].
  simpl. unfold mbind, M_bind. specialize (Hbody x w).
  destruct (body x w) as [[b|e] w1]; simpl in *; [|done].
  by rewrite IH.
Qed.

Lemma clear_all_uuid4_calls ids w :
  uuid4_calls (clear_all ids w).2 = uuid4_calls w.
Proof.
  unfold clear_all. unfold mbind at 1, M_bind at 1, read. simpl.
  apply for_each_preserves. intros [pk p] w0.
  unfold clear, serializer_save.
  destruct (serializer_errors (keep_stable (config p))); [done|].
  by unfold mbind, M_bind, save, modify, mret, M_ret.
Qed.

Lemma validate_prune_run (prune_data : gmap string json) target element w :
  prune_data !! "id" = Some (JInt target) →
  prune_data !! "element" = Some (JDict element) →
  named element →
  is_Some (projectors w !! target) →
  validate_prune (JDict prune_data) w = (Return (target, element), w).
Proof.
  intros Hid Helement Hnamed Htarget.
  unfold validate_prune, Py.get at 1, Py.get_default. rewrite Hid, Helement.
  simpl. erewrite bind_Return by reflexivity.
  rewrite bool_decide_true by done. unfold named in Hnamed. by rewrite Hnamed.
Qed.

(** X10.  A [project] request that passes its checks moves the element:
    every existing projector among [clear_ids] keeps its stable entries
    only, the projector to prune then holds its stable entries and the
    element, under the key drawn for it, with scroll 0, and every other
    projector is as it was. *)
Theorem project_moves (w : World) (data prune_data : gmap string json)
    (ids : list Z) (target : Z) (pt : Projector) (element : Element) :
  let key := uuid4_hex (uuid4_calls w) in
  let shown := <[key := element]> (stable_entries (config pt)) in
  data !! "clear_ids" = Some (JList (JInt <$> ids)) →
  data !! "prune" = Some (JDict prune_data) →
  prune_data !! "id" = Some (JInt target) →
  prune_data !! "element" = Some (JDict element) →
  named element →
  projectors w !! target = Some pt →
  (∀ pk p, pk ∈ ids → projectors w !! pk = Some p →
           serializer_errors (stable_entries (config p)) = None) →
  serializer_errors shown = None →
  ∃ w',
    project (JDict data) w = (Return tt, w') ∧
    projectors w' !! target = Some (set_scroll 0 (set_config shown pt)) ∧
    (∀ pk p,
       pk ∈ ids → pk ≠ target → projectors w !! pk = Some p →
       projectors w' !! pk = Some (set_config (stable_entries (config p)) p)) ∧
    (∀ pk, pk ∉ ids → pk ≠ target → projectors w' !! pk = projectors w !! pk).
Proof.
  intros key shown Hids Hprune Hid Helement Hnamed Htarget Hvalid Hshown.
  destruct (clear_all_run ids w Hvalid) as (w1 & Hclear & Hw1).
  pose proof (clear_all_uuid4_calls ids w) as Hcalls.
  rewrite Hclear in Hcalls. simpl in Hcalls.
  set (pt1 := if bool_decide (target ∈ ids)
              then set_config (stable_entries (config pt)) pt else pt).
  assert (Hpt1 : projectors w1 !! target = Some pt1).
  { by rewrite Hw1, Htarget. }
  assert (Hkept : keep_stable (config pt1) = stable_entries (config pt)).
  { rewrite keep_stable_filter. fold (stable_entries (config pt1)).
    unfold pt1. case_bool_decide; [|done]. simpl. apply stable_entries_idemp. }
  destruct (prune_run target pt1 [element] w1) as (w2 & Hrun & Hw2).
  { simpl. unfold drawn. simpl. rewrite Nat.add_0_r, Hcalls, Hkept. exact Hshown. }
  simpl in Hrun, Hw2. unfold drawn in Hrun, Hw2. simpl in Hrun, Hw2.
  rewrite Nat.add_0_r, Hcalls, Hkept in Hrun, Hw2. fold key shown in Hrun, Hw2.
  assert (Hsame : set_scroll 0 (set_config shown pt1) = set_scroll 0 (set_config shown pt)).
  { unfold pt1. by case_bool_decide. }
  rewrite Hsame in Hrun, Hw2.
  exists w2. split_and!.
  - unfold project, Py.get_default, Py.get. rewrite Hids, Hprune. simpl.
    erewrite bind_Return by apply ids_run.
    erewrite bind_Return; cycle 1.
    { erewrite bind_Return; [reflexivity|].
      apply validate_prune_run; by rewrite ?Htarget. }
    erewrite bind_Return by exact Hclear.
    erewrite bind_Return by reflexivity. rewrite Hpt1.
    by erewrite bind_Return by exact Hrun.
  - rewrite Hw2. apply lookup_insert_eq.
  - intros pk p Hin Hne Hp. rewrite Hw2, lookup_insert_ne by done.
    rewrite Hw1, Hp. simpl. by rewrite bool_decide_true.
  - intros pk Hnotin Hne. rewrite Hw2, lookup_insert_ne by done.
    rewrite Hw1. destruct (projectors w !! pk); [|done]. simpl.
    by rewrite bool_decide_false.
Qed.

(** X11.  Ids of [clear_ids] that are not the key of a projector are
    passed over: a request without [prune] that names only such ids
    returns and leaves the world as it is, nothing saved and nothing
    announced. *)
Theorem project_skips_missing (w : World) (data : gmap string json)
    (ids : list Z) :
  data !! "prune" = None →
  data !! "clear_ids" = Some (JList (JInt <$> ids)) →
  (∀ id, id ∈ ids → projectors w !! id = None) →
  project (JDict data) w = (Return tt, w).
Proof.
  intros Hprune Hids Hmissing.
  rewrite (project_clear_only data ids) by done.
  erewrite bind_Return; [reflexivity|].
  unfold clear_all. erewrite bind_Return by reflexivity.
  destruct (filter _ _) as [|[pk p] rows] eqn:Hrows; [done|]. exfalso.
  assert (Hin : (pk, p) ∈ filter (λ row : Z * Projector, row.1 ∈ ids)
                           (map_to_list (projectors w))).
  { rewrite Hrows. by left. }
  apply list_elem_of_filter in Hin as [Hin Hrow]. simpl in Hin.
  apply elem_of_map_to_list in Hrow. rewrite (Hmissing pk Hin) in Hrow. done.
Qed.


(** *** The setters of the projector *)

(** A value that passes [isinstance(x, int)] and is at least 2 is an
    integer, not a boolean, and is in the dict. *)
Lemma get_int (d : Element) (key : string) (n : Z) :
  Py.as_int (Py.get d key) = Some n → (2 ≤ n)%Z → d !! key = Some (JInt n).
Proof.
  unfold Py.get. destruct (d !! key) as [[| [] |m| | | |]|]; simpl;
    try done; intros [= <-]; (done || lia).
Qed.

(** X12.  [set_resolution] stores a resolution exactly when it is within
    800x340 and 3840x2880: a request with integers in these bounds
    returns on an existing projector and sets the two fields, and a
    request that returns had such integers (a boolean, though an [int]
    to Python, is below the bounds); a request that raises has written
    nothing. *)
Theorem set_resolution_bounds (w : World) (pk : Z) :
  (∀ (data : gmap string json) p wd h,
     projectors w !! pk = Some p →
     data !! "width" = Some (JInt wd) → data !! "height" = Some (JInt h) →
     (800 ≤ wd ≤ 3840)%Z → (340 ≤ h ≤ 2880)%Z →
     ∃ detail w',
       set_resolution pk (JDict data) w = (Return detail, w') ∧
       projectors w' = <[pk := set_height h (set_width wd p)]> (projectors w)) ∧
  (∀ data detail w',
     set_resolution pk data w = (Return detail, w') →
     ∃ d wd h,
       data = JDict d ∧
       d !! "width" = Some (JInt wd) ∧ d !! "height" = Some (JInt h) ∧
       (800 ≤ wd ≤ 3840)%Z ∧ (340 ≤ h ≤ 2880)%Z ∧
       (width <$> projectors w' !! pk) = Some wd ∧
       (height <$> projectors w' !! pk) = Some h) ∧
  (∀ data e w', set_resolution pk data w = (Raise e, w') → w' = w).
Proof.
  split_and!.
  - intros data p wd h Hp Hwd Hh Hwd_bounds Hh_bounds.
    unfold set_resolution, Py.get. rewrite Hwd, Hh. simpl.
    assert (((wd <? 800) || (3840 <? wd) || (h <? 340) || (2880 <? h))%Z = false)
      as -> by lia.
    erewrite bind_Return by by apply get_object_Some.
    erewrite bind_Return by reflexivity. by eexists _, _.
  - intros data detail w'. unfold set_resolution.
    destruct data as [| | | | | |d]; try done.
    destruct (Py.is_None (Py.get d "width") || Py.is_None (Py.get d "height"));
      [done|].
    destruct (Py.as_int (Py.get d "width")) as [wd|] eqn:Hwd; [|done].
    destruct (Py.as_int (Py.get d "height")) as [h|] eqn:Hh; [|done].
    destruct ((wd <? 800) || (3840 <? wd) || (h <? 340) || (2880 <? h))%Z
      eqn:Hbounds; [done|].
    destruct (projectors w !! pk) as [p|] eqn:Hp;
      [|by erewrite bind_Raise by by apply get_object_None].
    erewrite bind_Return by by apply get_object_Some.
    erewrite bind_Return by reflexivity. intros [= <- <-].
    exists d, wd, h. simpl. rewrite lookup_insert_eq. simpl.
    split_and!; try done; try lia.
    + apply get_int; [done|lia].
    + apply get_int; [done|lia].
  - intros data e w'. unfold set_resolution.
    destruct data as [| | | | | |d]; try by intros [= _ <-].
    destruct (Py.is_None (Py.get d "width") || Py.is_None (Py.get d "height"));
      [by intros [= _ <-]|].
    destruct (Py.as_int (Py.get d "width")), (Py.as_int (Py.get d "height"));
      try by intros [= _ <-].
    destruct ((z <? 800) || (3840 <? z) || (z0 <? 340) || (2880 <? z0))%Z;
      [by intros [= _ <-]|].
    destruct (projectors w !! pk) as [p|] eqn:Hp.
    + erewrite bind_Return by by apply get_object_Some.
      by erewrite bind_Return by reflexivity.
    + erewrite bind_Raise by by apply get_object_None. by intros [= _ <-].
Qed.


Lemma keeps_configs_raise {A} e : keeps_configs (raise e : M A).
Proof. done. Qed.

Lemma keeps_configs_bind {A B} (m : M A) (f : A → M B) :
  keeps_configs m → (∀ a, keeps_configs (f a)) → keeps_configs (m ≫= f).
Proof.
  intros Hm Hf w. unfold mbind, M_bind. specialize (Hm w).
  destruct (m w) as [[a|e] w1]; simpl in *; [|done].
  by rewrite Hf.
Qed.

(** Reading a projector, changing a field of it that is not the config
    and saving it leaves all configs as they are. *)
Lemma keeps_configs_setter {A} (pk : Z) (f : Projector → Projector) (a : A) :
  (∀ p, config (f p) = config p) →
  keeps_configs (get_object pk ≫= λ p, save pk (f p);; mret a).
Proof.
  intros Hf w. destruct (projectors w !! pk) as [p|] eqn:Hp.
  - erewrite bind_Return by by apply get_object_Some.
    erewrite bind_Return by reflexivity. simpl.
    rewrite fmap_insert. apply insert_id. by rewrite lookup_fmap, Hp, Hf.
  - by erewrite bind_Raise by by apply get_object_None.
Qed.

Lemma save_expressions_keeps pk p scale_e scroll_e w :
  projectors w !! pk = Some p →
  config <$> projectors (save_expressions pk p scale_e scroll_e w).2
    = config <$> projectors w.
Proof.
  intros Hp. simpl. rewrite fmap_insert. apply insert_id.
  by rewrite lookup_fmap, Hp.
Qed.

Lemma control_view_keeps_configs pk data : keeps_configs (control_view pk data).
Proof.
  intros w. unfold control_view. destruct data as [| | | | | |d]; try done.
  destruct (one_of _ _) as [action|]; [|done].
  destruct (one_of _ _) as [direction|]; [|done].
  destruct (projectors w !! pk) as [p|] eqn:Hp.
  - erewrite bind_Return by by apply get_object_Some.
    destruct (String.eqb action "scale").
    + erewrite bind_Return by reflexivity.
      erewrite bind_Return by reflexivity. by apply save_expressions_keeps.
    + erewrite bind_Return by reflexivity.
      erewrite bind_Return by reflexivity. by apply save_expressions_keeps.
  - by erewrite bind_Raise by by apply get_object_None.
Qed.

(** X13.  No setter touches an element: whatever the request and
    whether it returns or raises, [set_resolution], [set_scroll],
    [control_blank], [control_view], [broadcast] and
    [set_projectiondefault] leave the config of every projector as it
    was. *)
Theorem setters_keep_elements (pk : Z) (data : json) :
  keeps_configs (set_resolution pk data) ∧
  keeps_configs (set_scroll_view pk data) ∧
  keeps_configs (control_blank pk data) ∧
  keeps_configs (control_view pk data) ∧
  keeps_configs (broadcast pk) ∧
  keeps_configs (set_projectiondefault pk data).
Proof.
  split_and!.
  - unfold set_resolution.
    repeat match goal with
           | |- keeps_configs (raise _) => apply keeps_configs_raise
           | |- keeps_configs (if ?b then _ else _) => destruct b
           | |- keeps_configs (match ?x with _ => _ end) => destruct x
           end.
    by apply keeps_configs_setter.
  - unfold set_scroll_view. destruct (Py.as_int data);
      [|apply keeps_configs_raise].
    by apply keeps_configs_setter.
  - unfold control_blank. destruct data; try apply keeps_configs_raise.
    by apply keeps_configs_setter.
  - apply control_view_keeps_configs.
  - intros w. unfold broadcast. erewrite bind_Return by reflexivity.
    case_bool_decide; by erewrite bind_Return by reflexivity.
  - intros w. unfold set_projectiondefault.
    destruct (Py.as_int data) as [id|]; [|done].
    erewrite bind_Return by reflexivity.
    destruct (projectiondefaults w !! id) as [d|]; [|done].
    destruct (projectors w !! pk) as [p|] eqn:Hp.
    + erewrite bind_Return by by apply get_object_Some.
      by erewrite bind_Return by reflexivity.
    + by erewrite bind_Raise by by apply get_object_None.
Qed.


Lemma append_assoc (s1 s2 s3 : string) :
  (s1 +:+ s2) +:+ s3 = s1 +:+ s2 +:+ s3.
Proof.
  induction s1 as [|a s1 IH]; [done|].
  change (String a ((s1 +:+ s2) +:+ s3) = String a (s1 +:+ s2 +:+ s3)).
  by f_equal.
Qed.

Lemma control_view_run (w : World) (pk : Z) (p : Projector)
    (action direction : string) :
  projectors w !! pk = Some p →
  action ∈ ["scale"; "scroll"] →
  direction ∈ ["up"; "down"; "reset"] →
  control_view pk (control action direction) w =
    (Return (str_tuple (capitalize action) +:+ " " +:+
             str_tuple direction +:+ " was successful."),
     mkWorld
       (<[pk := if String.eqb action "scale"
                then set_scale (step direction (scale p)) p
                else set_scroll (step direction (scroll p)) p]> (projectors w))
       (projectiondefaults w) (projector_broadcast w) (uuid4_calls w)
       (informed w ++ [ChangedProjector pk])).
Proof.
  intros Hp Haction Hdirection. unfold control_view, control, Py.get.
  assert (Ha : ({[ "action" := JStr action; "direction" := JStr direction ]}
                 : Element) !! "action" = Some (JStr action))
    by apply lookup_insert_eq.
  assert (Hd : ({[ "action" := JStr action; "direction" := JStr direction ]}
                 : Element) !! "direction" = Some (JStr direction))
    by (rewrite lookup_insert_ne by done; apply lookup_insert_eq).
  rewrite Ha, Hd. simpl. rewrite !bool_decide_true by done.
  erewrite bind_Return by by apply get_object_Some.
  assert (Hrow : ∀ q : Projector, set_scroll (scroll q) (set_scale (scale q) q) = q)
    by by intros [].
  unfold step.
  destruct (String.eqb action "scale");
    erewrite bind_Return by reflexivity;
    erewrite bind_Return by reflexivity;
    unfold save_expressions, mret, M_ret, modify; simpl; rewrite Hp; simpl;
    do 3 f_equal; destruct p;
    destruct (String.eqb direction "up"), (String.eqb direction "down");
    reflexivity.
Qed.

(** X14.  [control_view] moves one number and nothing else: the scale
    (or the scroll) goes one up, one down, or to 0, every other field
    and every element of the projector stays, and autoupdate is
    informed once.  The detail of the answer shows action and direction
    as one-element tuples. *)
Theorem control_view_moves (w : World) (pk : Z) (p : Projector)
    (action direction : string) :
  projectors w !! pk = Some p →
  action ∈ ["scale"; "scroll"] →
  direction ∈ ["up"; "down"; "reset"] →
  ∃ (w' : World) (p' : Projector),
    control_view pk (control action direction) w
      = (Return ("('" +:+ capitalize action +:+ "',) ('" +:+ direction +:+
                 "',) was successful."), w') ∧
    projectors w' = <[pk := p']> (projectors w) ∧
    informed w' = (informed w ++ [ChangedProjector pk])%list ∧
    config p' = config p ∧ width p' = width p ∧ height p' = height p ∧
    blank p' = blank p ∧
    (action = "scale" →
     scale p' = step direction (scale p) ∧ scroll p' = scroll p) ∧
    (action = "scroll" →
     scroll p' = step direction (scroll p) ∧ scale p' = scale p).
Proof.
  intros Hp Haction Hdirection.
  exists (mkWorld
       (<[pk := if String.eqb action "scale"
                then set_scale (step direction (scale p)) p
                else set_scroll (step direction (scroll p)) p]> (projectors w))
       (projectiondefaults w) (projector_broadcast w) (uuid4_calls w)
       (informed w ++ [ChangedProjector pk])),
    (if String.eqb action "scale"
     then set_scale (step direction (scale p)) p
     else set_scroll (step direction (scroll p)) p).
  split.
  { rewrite (control_view_run w pk p) by done. do 2 f_equal.
    unfold str_tuple. by rewrite !append_assoc. }
  do 2 (split; [reflexivity|]).
  apply elem_of_cons in Haction as [->|Haction];
    [|apply list_elem_of_singleton in Haction as ->]; by destruct p.
Qed.

(** X15.  Up and down undo each other: after [control_view] with "up"
    and then with "down", or the other way round, of the same action
    the table of projectors is as it was. *)
Theorem control_view_up_down (w : World) (pk : Z) (p : Projector)
    (action : string) :
  projectors w !! pk = Some p →
  action ∈ ["scale"; "scroll"] →
  (∃ d1 w1 d2 w2,
     control_view pk (control action "up") w = (Return d1, w1) ∧
     control_view pk (control action "down") w1 = (Return d2, w2) ∧
     projectors w2 = projectors w) ∧
  (∃ d1 w1 d2 w2,
     control_view pk (control action "down") w = (Return d1, w1) ∧
     control_view pk (control action "up") w1 = (Return d2, w2) ∧
     projectors w2 = projectors w).
Proof.
  intros Hp Haction.
  assert (Hup : "up" ∈ ["up"; "down"; "reset"]) by repeat constructor.
  assert (Hdown : "down" ∈ ["up"; "down"; "reset"]) by repeat constructor.
  assert (Hback : ∀ (q : Projector) d1 d2,
            step d2 (step d1 (scale q)) = scale q →
            step d2 (step d1 (scroll q)) = scroll q →
            (if String.eqb action "scale"
             then set_scale (step d2 (scale (if String.eqb action "scale"
                    then set_scale (step d1 (scale q)) q
                    else set_scroll (step d1 (scroll q)) q)))
                    (if String.eqb action "scale"
                     then set_scale (step d1 (scale q)) q
                     else set_scroll (step d1 (scroll q)) q)
             else set_scroll (step d2 (scroll (if String.eqb action "scale"
                    then set_scale (step d1 (scale q)) q
                    else set_scroll (step d1 (scroll q)) q)))
                    (if String.eqb action "scale"
                     then set_scale (step d1 (scale q)) q
                     else set_scroll (step d1 (scroll q)) q)) = q).
  { intros [] d1 d2 Hscale Hscroll. simpl in *.
    destruct (String.eqb action "scale"); unfold set_scale, set_scroll; simpl;
      by rewrite ?Hscale, ?Hscroll. }
  split.
  - eexists _, _, _, _. split_and!.
    + by apply control_view_run.
    + apply control_view_run; [apply lookup_insert_eq|done..].
    + simpl. rewrite insert_insert_eq. apply insert_id. rewrite Hp. f_equal.
      symmetry. apply Hback; unfold step; simpl; lia.
  - eexists _, _, _, _. split_and!.
    + by apply control_view_run.
    + apply control_view_run; [apply lookup_insert_eq|done..].
    + simpl. rewrite insert_insert_eq. apply insert_id. rewrite Hp. f_equal.
      symmetry. apply Hback; unfold step; simpl; lia.
Qed.

(** X16.  [set_scroll] takes a boolean for an int, as [isinstance]
    does: [true] scrolls the projector to 1 and [false] to 0.
    [control_blank] takes nothing but a boolean and answers an int with
    a validation error, leaving everything as it was. *)
Theorem scroll_takes_bool_blank_no_int (w : World) (pk : Z) (p : Projector)
    (b : bool) (n : Z) :
  projectors w !! pk = Some p →
  (∃ detail w',
     set_scroll_view pk (JBool b) w = (Return detail, w') ∧
     projectors w' = <[pk := set_scroll (if b then 1 else 0) p]> (projectors w)) ∧
  control_blank pk (JInt n) w
    = (Raise (ValidationError "Data must be a bool."), w).
Proof.
  intros Hp. split; [|done].
  unfold set_scroll_view. simpl.
  erewrite bind_Return by by apply get_object_Some.
  erewrite bind_Return by reflexivity.
  eexists _, _. split; [reflexivity|]. by destruct b.
Qed.

Lemma broadcast_run (w : World) (pk : Z) :
  ∃ detail,
    broadcast pk w =
      (Return detail,
       mkWorld (projectors w) (projectiondefaults w)
         (if bool_decide (projector_broadcast w = 0) then pk else 0)
         (uuid4_calls w)
         (informed w ++ [ChangedConfig "projector_broadcast"])).
Proof.
  unfold broadcast. erewrite bind_Return by reflexivity.
  case_bool_decide; erewrite bind_Return by reflexivity; by eexists.
Qed.

(** X17.  [broadcast] is a switch, not a setter: with no broadcast
    projector it makes the projector of the request the broadcast
    projector; with one, the request of any projector, the same or
    another, only switches broadcasting off.  The tables stay as they
    are. *)
Theorem broadcast_switches (w : World) (pk pk' : Z) :
  projector_broadcast w = 0 →
  pk ≠ 0 →
  ∃ d1 w1 d2 w2,
    broadcast pk w = (Return d1, w1) ∧
    projector_broadcast w1 = pk ∧
    broadcast pk' w1 = (Return d2, w2) ∧
    projector_broadcast w2 = 0 ∧
    projectors w2 = projectors w ∧
    projectiondefaults w2 = projectiondefaults w.
Proof.
  intros Hoff Hpk.
  destruct (broadcast_run w pk) as [d1 H1].
  destruct (broadcast_run
              (mkWorld (projectors w) (projectiondefaults w)
                 (if bool_decide (projector_broadcast w = 0) then pk else 0)
                 (uuid4_calls w)
                 (informed w ++ [ChangedConfig "projector_broadcast"])) pk')
    as [d2 H2].
  eexists _, _, _, _. split_and!; [exact H1| |exact H2|..]; simpl.
  - by rewrite bool_decide_true.
  - by rewrite (bool_decide_true _ Hoff), bool_decide_false.
  - done.
  - done.
Qed.

(** X18.  [broadcast] does not look the projector up: for a key that
    no projector has it answers as for any other, and the broadcast
    setting then names a projector that does not exist. *)
Theorem broadcast_unchecked (w : World) (pk : Z) :
  projectors w !! pk = None →
  projector_broadcast w = 0 →
  pk ≠ 0 →
  ∃ detail w',
    broadcast pk w = (Return detail, w') ∧
    projector_broadcast w' = pk ∧
    ¬ broadcast_valid w'.
Proof.
  intros Hnone Hoff Hpk. destruct (broadcast_run w pk) as [detail Hrun].
  eexists _, _. split_and!; [exact Hrun|..]; simpl;
    rewrite (bool_decide_true _ Hoff); [done|].
  intros [Hzero|Hsome]; simpl in *; [done|].
  rewrite Hnone in Hsome. by destruct Hsome.
Qed.

(** X19.  [destroy] keeps the references of the database whole: when
    the broadcast setting and every projection default name an existing
    projector, the destroyed projector is not the default one and the
    default one (id 1) exists, they all name an existing projector
    afterwards as well. *)
Theorem destroy_keeps_references (w : World) (pk : Z) (p : Projector) :
  projectors w !! pk = Some p →
  pk ≠ 1 →
  is_Some (projectors w !! 1) →
  broadcast_valid w →
  defaults_valid w →
  ∃ w',
    destroy pk w = (Return tt, w') ∧ broadcast_valid w' ∧ defaults_valid w'.
Proof.
  intros Hp Hpk Hone Hb Hd.
  destruct (destroy_run w pk p Hp) as (w' & Hrun & Hps & Hds & Hbs).
  exists w'. split_and!; [done|..].
  - unfold broadcast_valid. rewrite Hbs, Hps. case_bool_decide as Heq; [by left|].
    destruct Hb as [Hb|Hb]; [by left|right]. by rewrite lookup_delete_ne.
  - intros k d. rewrite (destroy_rows w w' pk Hds), Hps.
    destruct (projectiondefaults w !! k) as [d0|] eqn:Hk; [|done].
    rewrite (bool_decide_false (pk = 1)) by done.
    destruct (decide (projector_id d0 = pk)) as [Heq|Hne].
    + rewrite bool_decide_true by done. intros [= <-]. destruct d0. simpl.
      by rewrite lookup_delete_ne.
    + rewrite bool_decide_false by done. intros [= <-].
      rewrite lookup_delete_ne by done. by eapply Hd.
Qed.


(** X21.  [set_projectiondefault] moves one projection default to the
    projector of the request: that row refers to it afterwards, every
    other row and every projector is as it was, and when all projection
    defaults named existing projectors before they do so afterwards. *)
Theorem set_projectiondefault_moves (w : World) (pk id : Z) (p : Projector)
    (d : ProjectionDefault) (data : json) :
  Py.as_int data = Some id →
  projectiondefaults w !! id = Some d →
  projectors w !! pk = Some p →
  ∃ detail w',
    set_projectiondefault pk data w = (Return detail, w') ∧
    projectiondefaults w' = <[id := set_projector_id pk d]> (projectiondefaults w) ∧
    projectors w' = projectors w ∧
    projector_broadcast w' = projector_broadcast w ∧
    (defaults_valid w → defaults_valid w').
Proof.
  intros Hid Hd Hp. unfold set_projectiondefault. rewrite Hid.
  erewrite bind_Return by reflexivity. rewrite Hd.
  erewrite bind_Return by by apply get_object_Some.
  erewrite bind_Return by reflexivity.
  eexists _, _. split; [reflexivity|]. simpl. split_and!; [done..|].
  intros Hvalid k d'. simpl. destruct (decide (k = id)) as [->|Hne].
  - rewrite lookup_insert_eq. intros [= <-]. destruct d. simpl. by rewrite Hp.
  - rewrite lookup_insert_ne by done. apply Hvalid.
Qed.

(** X22.  [set_projectiondefault] looks for the projection default
    first: when it is missing the answer is a validation error, whether
    the projector exists or not; a missing projector is answered with
    404 only for an existing projection default.  Nothing is changed in
    either case. *)
Theorem set_projectiondefault_error_order (w : World) (pk id : Z)
    (data : json) :
  Py.as_int data = Some id →
  (projectiondefaults w !! id = None →
   set_projectiondefault pk data w
     = (Raise (ValidationError ("The projectiondefault with pk=" +:+ str data
                                +:+ " was not found.")), w)) ∧
  (is_Some (projectiondefaults w !! id) →
   projectors w !! pk = None →
   set_projectiondefault pk data w = (Raise Http404, w)).
Proof.
  intros Hid. unfold set_projectiondefault. rewrite Hid. split.
  - intros Hnone. erewrite bind_Return by reflexivity. by rewrite Hnone.
  - intros [d Hd] Hnone. erewrite bind_Return by reflexivity. rewrite Hd.
    by erewrite bind_Raise by by apply get_object_None.
Qed.

End more_properties.

(** ** Permissions and the other viewsets *)

Section viewset_properties.
Context (has_perm : string → bool).
Context (check_permissions is_authenticated anonymous_is_enabled : bool).

Lemma elem_of_choices (s : string) (l : list string) :
  s ∈ l ↔ existsb (String.eqb s) l = true.
Proof.
  rewrite existsb_exists, list_elem_of_In. split.
  - intros Hin. exists s. by rewrite String.eqb_refl.
  - intros (s' & Hin & Heq). by apply String.eqb_eq in Heq as ->.
Qed.

Lemma not_elem_of_choices (s : string) (l : list string) :
  s ∉ l ↔ existsb (String.eqb s) l = false.
Proof. rewrite elem_of_choices. by destruct (existsb _ _). Qed.

Lemma bool_decide_choices (s : string) (l : list string) :
  bool_decide (s ∈ l) = existsb (String.eqb s) l.
Proof.
  destruct (existsb _ _) eqn:E.
  - apply bool_decide_true. by apply elem_of_choices.
  - apply bool_decide_false. by apply not_elem_of_choices.
Qed.

(** X23.  In [ProjectorViewSet] whatever is permitted besides list and
    retrieve needs the permission to see the projector, and whatever is
    permitted besides these and metadata needs the permission to manage
    it as well. *)
Theorem projector_permissions (action : string) :
  action ∉ ["list"; "retrieve"] →
  ProjectorViewSet.check_view_permissions has_perm check_permissions action
    = true →
  has_perm "core.can_see_projector" = true ∧
  (action ≠ "metadata" → has_perm "core.can_manage_projector" = true).
Proof.
  intros Hread. unfold ProjectorViewSet.check_view_permissions.
  rewrite bool_decide_false by done.
  destruct (String.eqb_spec action "metadata") as [->|Hmeta].
  - by intros ->.
  - destruct (bool_decide _); [|done].
    intros [-> ->]%andb_true_iff. done.
Qed.

(** X24.  No viewset permits an action it does not list: for an action
    outside the ones the file names every [check_view_permissions]
    answers no, whoever asks. *)
Theorem unlisted_action_refused (action pk : string) :
  action ∉ known_actions →
  ProjectorViewSet.check_view_permissions has_perm check_permissions action
    = false ∧
  TagViewSet.check_view_permissions has_perm check_permissions
    is_authenticated anonymous_is_enabled action = false ∧
  ConfigViewSet.check_view_permissions has_perm check_permissions
    is_authenticated anonymous_is_enabled action pk = false ∧
  ChatMessageViewSet.check_view_permissions has_perm check_permissions
    is_authenticated action = false ∧
  ProjectorMessageViewSet.check_view_permissions has_perm check_permissions
    action = false ∧
  CountdownViewSet.check_view_permissions has_perm check_permissions action
    = false ∧
  HistoryViewSet.check_view_permissions check_permissions action = false.
Proof.
  intros Hnot. apply not_elem_of_choices in Hnot. unfold known_actions in Hnot.
  simpl in Hnot. repeat apply orb_false_iff in Hnot as [? Hnot].
  unfold ProjectorViewSet.check_view_permissions,
    TagViewSet.check_view_permissions, ConfigViewSet.check_view_permissions,
    ChatMessageViewSet.check_view_permissions,
    ProjectorMessageViewSet.check_view_permissions,
    CountdownViewSet.check_view_permissions,
    HistoryViewSet.check_view_permissions.
  rewrite !bool_decide_choices. simpl.
  repeat match goal with E : String.eqb action _ = false |- _ =>
    rewrite E; clear E end.
  done.
Qed.

Lemma startswith_append (old rest : string) :
  CPython.startswith (old +:+ rest) old = true.
Proof.
  induction old as [|a old IH]; [done|].
  change (String a old +:+ rest) with (String a (old +:+ rest)).
  simpl. by rewrite Ascii.eqb_refl, IH.
Qed.

(** X25.  For the config variables whose key starts with logo or font
    the right to change one is [core.can_manage_logos_and_fonts] alone:
    [core.can_manage_config] neither is needed nor helps. *)
Theorem config_permission_by_prefix (action pk rest : string) :
  action ∈ ["partial_update"; "update"] →
  pk = "logo" +:+ rest ∨ pk = "font" +:+ rest →
  ConfigViewSet.check_view_permissions has_perm check_permissions
    is_authenticated anonymous_is_enabled action pk
    = has_perm "core.can_manage_logos_and_fonts".
Proof.
  intros Haction Hpk. unfold ConfigViewSet.check_view_permissions.
  rewrite (bool_decide_true (action ∈ ["partial_update"; "update"])) by done.
  rewrite bool_decide_false, (proj2 (String.eqb_neq _ _)).
  - destruct Hpk as [-> | ->].
    + by rewrite (startswith_append "logo").
    + rewrite (startswith_append "font"). by rewrite orb_true_r.
  - apply elem_of_cons in Haction as [->|Haction];
      [|apply list_elem_of_singleton in Haction as ->]; done.
  - apply not_elem_of_choices.
    apply elem_of_cons in Haction as [->|Haction];
      [|apply list_elem_of_singleton in Haction as ->]; done.
Qed.

(** X26.  The chat keeps anonymous users from writing, not from
    clearing: a user who is not authenticated may never create a chat
    message, whatever the permissions, and with the permissions to use
    and to manage the chat may clear it all the same. *)
Theorem chat_permissions_anonymous :
  is_authenticated = false →
  ChatMessageViewSet.check_view_permissions has_perm check_permissions
    is_authenticated "create" = false ∧
  ChatMessageViewSet.check_view_permissions has_perm check_permissions
    is_authenticated "clear"
    = has_perm "core.can_use_chat" && has_perm "core.can_manage_chat".
Proof. by intros ->. Qed.

Context {Store : Type} (setitem : string → json → Store → ConfigViewSet.assignment * Store).


Context (collection_string : string).

(** X28.  [ChatMessageViewSet.clear] leaves no chat message, tells
    autoupdate of every deleted one in one call, and of nothing when
    there was none: a second [clear] changes nothing. *)
Theorem chat_clear_twice (chat : ChatMessageViewSet.Chat) :
  let chat' := (ChatMessageViewSet.clear collection_string chat).2 in
  ChatMessageViewSet.chatmessages chat' = [] ∧
  (ChatMessageViewSet.chatmessages chat ≠ [] →
   ChatMessageViewSet.informed_deleted chat'
     = (ChatMessageViewSet.informed_deleted chat
        ++ [(λ pk, (collection_string, pk))
              <$> ChatMessageViewSet.chatmessages chat])%list) ∧
  (ChatMessageViewSet.chatmessages chat = [] →
   ChatMessageViewSet.informed_deleted chat'
     = ChatMessageViewSet.informed_deleted chat) ∧
  (ChatMessageViewSet.clear collection_string chat').2 = chat'.
Proof.
  destruct chat as [[|pk messages] log]; simpl; by split_and!.
Qed.

End viewset_properties.

(** ** The statements on the example database *)

#[local] Existing Instance example_externals.


(** C3 as the specification words it fails here: projector 1 has
    scroll 5 and still has it after [clear_elements], in the answer and
    in the database, and after the first step of [project]. *)
Lemma clear_elements_scroll_stays :
  projectors Example.world !! 1 = Some Example.projector1 ∧
  scroll Example.projector1 = 5 ∧
  scroll <$> (clear_elements 1 Example.world).1 = Return 5 ∧
  scroll <$> projectors (clear_elements 1 Example.world).2 !! 1 = Some 5 ∧
  (project (JDict Example.clear_request) Example.world).1 = Return tt ∧
  scroll <$>
    projectors (project (JDict Example.clear_request) Example.world).2 !! 1
    = Some 5.
Proof. by vm_compute. Qed.

(** Decides a closed proposition by evaluation. *)
Ltac evaluate := apply (bool_decide_unpack _); vm_compute; exact I.

(** C1.  Projector 3 does not exist, and the request that wants to
    prune it gives [null] for [clear_ids]: [project] ends in
    [TypeError] at the loop over [clear_ids], before it has looked at
    [prune], so the answer is not a validation error.  No projector has
    been cleared. *)
Theorem project_missing_target_type_error :
  Requests.null_ids_request !! "prune" = Some (JDict Requests.null_ids_prune) ∧
  Py.as_int (Py.get Requests.null_ids_prune "id") = Some 3 ∧
  projectors Example.world !! 3 = None ∧
  project (JDict Requests.null_ids_request) Example.world
    = (Raise TypeError, Example.world) ∧
  ∀ detail,
    (project (JDict Requests.null_ids_request) Example.world).1
      ≠ Raise (ValidationError detail).
Proof. split_and!; [reflexivity..|]. intros detail. by vm_compute. Qed.

(** X29 on the example: projector 3 does not exist, projector 1 stays
    uncleared. *)
Lemma project_invalid_prune_clears_nothing_witness :
  Example.nameless_request !! "prune" = Some (JDict Example.nameless_prune) ∧
  projectors Example.world !! 3 = None ∧
  ∃ e, project (JDict Example.nameless_request) Example.world
         = (Raise e, Example.world).
Proof.
  split_and!; [reflexivity..|].
  apply (project_invalid_prune_clears_nothing Example.world
           Example.nameless_request Example.nameless_prune 3);
    [reflexivity..|by left].
Defined.


(** C3, as amended, on the example: projector 1 keeps its scroll 5
    and its resolution. *)
Lemma clear_leaves_scroll_witness :
  projectors Example.world !! 1 = Some Example.projector1 ∧
  serializer_errors (stable_entries (config Example.projector1)) = None ∧
  Example.clear_request !! "prune" = None ∧
  Example.clear_request !! "clear_ids" = Some (JList (JInt <$> [1])) ∧
  (∃ p' w', clear_elements 1 Example.world = (Return p', w') ∧
            scroll p' = 5 ∧ width p' = 1024 ∧ height p' = 768) ∧
  (∃ w' p', project (JDict Example.clear_request) Example.world = (Return tt, w') ∧
            projectors w' !! 1 = Some p' ∧
            scroll p' = 5 ∧ width p' = 1024 ∧ height p' = 768).
Proof.
  destruct (clear_leaves_scroll Example.world) as [Hview Hproject].
  split_and!; [reflexivity..| |].
  - destruct (Hview 1 Example.projector1)
      as (p' & w' & Hrun & _ & _ & Hs & _ & Hwidth & Hheight & _);
      [reflexivity..|].
    by exists p', w'.
  - destruct (Hproject [1]) as (w' & _ & Hrun & Hw'); [done|].
    destruct (Hw' 1 Example.projector1)
      as (p' & Hp' & _ & Hs & _ & Hwidth & Hheight & _);
      [by left|reflexivity|].
    exists w', p'. split_and!; [|done..].
    by apply Hrun.
Defined.

(** C4 on the example: the slide is shown on projector 1 again. *)
Lemma prune_elements_mapping_witness :
  projectors Example.world !! 1 = Some Example.projector1 ∧
  Forall (λ e, Py.is_None (Py.get e "name") = false) [Example.slide] ∧
  NoDup (drawn Example.world 1) ∧
  Forall (absent (config Example.projector1)) (drawn Example.world 1) ∧
  ∃ p' w',
    prune_elements 1 (JList (JDict <$> [Example.slide])) Example.world
      = (Return p', w') ∧
    config p' = {[ Example.key1 := Example.countdown;
                   uuid4_of_nat 0 := Example.slide ]} ∧
    scroll p' = 0.
Proof.
  assert (H1 : projectors Example.world !! 1 = Some Example.projector1)
    by reflexivity.
  assert (H2 : Forall (λ e, Py.is_None (Py.get e "name") = false) [Example.slide])
    by (by repeat constructor).
  assert (H3 : NoDup (drawn Example.world 1)) by evaluate.
  assert (H4 : Forall (absent (config Example.projector1)) (drawn Example.world 1))
    by (by repeat constructor).
  split_and!; [done..|].
  destruct (prune_elements_mapping Example.world 1 Example.projector1
              [Example.slide] H1 H2 H3 H4) as (p' & w' & Hrun & _ & Hc & _ & _ & _ & _ & _ & Hs);
    [reflexivity|].
  exists p', w'. split_and!; [done| |done]. rewrite Hc. by vm_compute.
Defined.

(** C5 on the example of the specification: [{name: "a", x: 1}] updated
    with [{x: 2, y: 3}] is [{name: "a", x: 2, y: 3}], under the same
    key. *)
Lemma update_elements_merges_witness :
  projectors Example.world !! 2 = Some Example.projector2 ∧
  map_Forall (λ key value,
                UUID_hex key = true ∧
                (∃ partial, value = JDict partial) ∧
                is_Some (config Example.projector2 !! key))
    Example.update_request ∧
  ∃ p' w',
    update_elements 2 (JDict Example.update_request) Example.world
      = (Return p', w') ∧
    dom (config p') = dom (config Example.projector2) ∧
    config p' !! Example.key3
      = Some {[ "name" := JStr "a"; "x" := JInt 2; "y" := JInt 3 ]}.
Proof.
  assert (H1 : projectors Example.world !! 2 = Some Example.projector2)
    by reflexivity.
  assert (H2 : map_Forall (λ key value,
                  UUID_hex key = true ∧
                  (∃ partial, value = JDict partial) ∧
                  is_Some (config Example.projector2 !! key))
                 Example.update_request).
  { apply map_Forall_singleton. split_and!; [reflexivity|by eexists|by eexists]. }
  split_and!; [done..|].
  destruct (update_elements_merges Example.world 2 Example.projector2
              Example.update_request H1 H2)
    as (p' & w' & Hrun & _ & Hdom & Hc & _); [reflexivity|].
  exists p', w'. split_and!; [done..|].
  by rewrite (Hc Example.key3 Example.a).
Defined.

(** C6 on the example: the batch names the key of the countdown and a
    key projector 1 does not hold; the countdown stays. *)
Lemma deactivate_elements_aborts_witness :
  projectors Example.world !! 1 = Some Example.projector1 ∧
  Exists (absent (config Example.projector1))
    [Example.key1; Example.key3] ∧
  Forall (λ key, UUID_hex key = true) [Example.key1; Example.key3] ∧
  deactivate_elements 1 (JList (JStr <$> [Example.key1; Example.key3]))
    Example.world
    = (Raise (ValidationError "Invalid UUID."), Example.world).
Proof.
  assert (H1 : projectors Example.world !! 1 = Some Example.projector1)
    by reflexivity.
  assert (H2 : Exists (absent (config Example.projector1))
                 [Example.key1; Example.key3])
    by (right; left; reflexivity).
  assert (H3 : Forall (λ key, UUID_hex key = true) [Example.key1; Example.key3])
    by (by repeat constructor).
  split_and!; [done..|].
  destruct (deactivate_elements_aborts Example.world 1 Example.projector1
              [Example.key1; Example.key3] H1 H2)
    as [(detail & Hrun & Hdetail) _].
  by rewrite Hrun, (Hdetail H3).
Defined.



(** C9 on the example: a key written with hyphens passes the check of
    both views and fails the lookup. *)
Lemma parseable_key_fails_lookup_witness :
  projectors Example.world !! 1 = Some Example.projector1 ∧
  Example.key4
    = CPython.hyphenated "7d44c1f2" "53a0" "4b7e" "9c11" "0a2b3c4d5e6f" ∧
  Forall (λ key, UUID_hex key = true)
    (CPython.forms "7d44c1f2" "53a0" "4b7e" "9c11" "0a2b3c4d5e6f") ∧
  absent (config Example.projector1) Example.key4 ∧
  update_elements 1 (JDict {[ Example.key4 := JDict Example.partial ]})
    Example.world
    = (Raise wrong_uuid, Example.world) ∧
  deactivate_elements 1 (JList (JStr <$> [Example.key1; Example.key4]))
    Example.world
    = (Raise invalid_uuid, Example.world).
Proof.
  assert (H1 : projectors Example.world !! 1 = Some Example.projector1)
    by reflexivity.
  assert (H3 : absent (config Example.projector1) Example.key4)
    by reflexivity.
  destruct (parseable_key_fails_lookup Example.world 1 Example.projector1 H1)
    as (Hupdate & Hdeactivate & Hforms).
  assert (H4 : Forall (λ key, UUID_hex key = true)
                 (CPython.forms "7d44c1f2" "53a0" "4b7e" "9c11" "0a2b3c4d5e6f")).
  { apply Hforms; [by intros s Hs|by split..]. }
  assert (H2 : UUID_hex Example.key4 = true).
  { apply Forall_cons in H4 as [_ H4]. by apply Forall_cons in H4 as [H4 _]. }
  split_and!; [done|reflexivity|done|done| |].
  - apply Hupdate.
    + apply map_Forall_singleton. split; [done|by eexists].
    + exists Example.key4. split; [|done].
      rewrite lookup_singleton_eq. by eexists.
  - apply Hdeactivate.
    + by repeat constructor.
    + right. by left.
Defined.


(** ** The further statements on the example database *)

(** X1 on the example: the slide is activated on projector 2 beside
    the element it shows. *)
Lemma activate_elements_adds_witness :
  projectors Example.world !! 2 = Some Example.projector2 ∧
  Forall named [Example.slide] ∧
  ∃ p' w',
    activate_elements 2 (JList (JDict <$> [Example.slide])) Example.world
      = (Answer (Return p'), w') ∧
    config p' !! Example.key3 = Some Example.a ∧
    config p' !! uuid4_of_nat 0 = Some Example.slide ∧
    size (config p') = 2%nat.
Proof.
  assert (H1 : projectors Example.world !! 2 = Some Example.projector2)
    by reflexivity.
  assert (H2 : Forall named [Example.slide]) by (by repeat constructor).
  assert (H3 : NoDup (drawn Example.world 1)) by evaluate.
  assert (H4 : Forall (absent (config Example.projector2)) (drawn Example.world 1))
    by (by repeat constructor).
  split_and!; [done..|].
  destruct (activate_elements_adds Example.world 2 Example.projector2
              [Example.slide] H1 H2 H3 H4)
    as (w' & Hrun & _ & _ & Hold & Hnew & Hsize); [reflexivity|].
  eexists _, w'. split; [exact Hrun|]. split_and!.
  - by apply Hold.
  - by apply (Hnew 0%nat).
  - exact Hsize.
Defined.

(** X2 on the example: the second element has no name; a key has been
    drawn for the first one and the database is as it was. *)
Lemma activate_elements_all_or_nothing_witness :
  (activate_elements 2 (JList [JDict Example.slide; JDict ∅]) Example.world).1
    = Answer (Raise name_is_missing) ∧
  uuid4_calls
    (activate_elements 2 (JList [JDict Example.slide; JDict ∅]) Example.world).2
    = 1%nat ∧
  same_database Example.world
    (activate_elements 2 (JList [JDict Example.slide; JDict ∅]) Example.world).2.
Proof.
  split_and!; [reflexivity..|].
  apply (activate_elements_all_or_nothing 2
           (JList [JDict Example.slide; JDict ∅]) Example.world
           (Answer (Raise name_is_missing))).
  - reflexivity.
  - intros p'. discriminate.
Defined.

(** X3 on the example: a string among the elements. *)
Lemma activate_elements_unchecked_element_witness :
  projectors Example.world !! 1 = Some Example.projector1 ∧
  Forall named [Example.slide] ∧
  (activate_elements 1 (JList [JDict Example.slide; JStr "x"]) Example.world).1
    = AttributeError ∧
  prune_elements 1 (JList [JDict Example.slide; JStr "x"]) Example.world
    = (Raise (ValidationError "All elements have to be dicts."), Example.world).
Proof.
  assert (H1 : projectors Example.world !! 1 = Some Example.projector1)
    by reflexivity.
  assert (H2 : Forall named [Example.slide]) by (by repeat constructor).
  split_and!; [done..| |];
    by apply (activate_elements_unchecked_element Example.world 1
                Example.projector1 [Example.slide] (JStr "x") [] H1 H2).
Defined.

(** X4 on the example: the slide is activated on projector 1 and
    cleared away with the slide that was there; the countdown stays. *)
Lemma clear_after_activate_witness :
  projectors Example.world !! 1 = Some Example.projector1 ∧
  Forall (λ element, stable element = false) [Example.slide] ∧
  ∃ p1 w1 p2 w2,
    activate_elements 1 (JList (JDict <$> [Example.slide])) Example.world
      = (Answer (Return p1), w1) ∧
    clear_elements 1 w1 = (Return p2, w2) ∧
    config p2 = {[ Example.key1 := Example.countdown ]}.
Proof.
  assert (H1 : projectors Example.world !! 1 = Some Example.projector1)
    by reflexivity.
  assert (H2 : Forall named [Example.slide]) by (by repeat constructor).
  assert (H3 : Forall (λ element, stable element = false) [Example.slide])
    by (by repeat constructor).
  assert (H4 : NoDup (drawn Example.world 1)) by evaluate.
  assert (H5 : Forall (absent (config Example.projector1)) (drawn Example.world 1))
    by (by repeat constructor).
  split_and!; [done..|].
  destruct (clear_after_activate Example.world 1 Example.projector1
              [Example.slide] H1 H2 H3 H4 H5)
    as (p1 & w1 & p2 & w2 & Hrun1 & Hrun2 & Hc & _); [reflexivity..|].
  exists p1, w1, p2, w2. split_and!; [done..|]. rewrite Hc. by vm_compute.
Defined.

(** X5 on the example. *)
Lemma clear_elements_idempotent_witness :
  projectors Example.world !! 1 = Some Example.projector1 ∧
  ∃ p1 w1 w2,
    clear_elements 1 Example.world = (Return p1, w1) ∧
    clear_elements 1 w1 = (Return p1, w2) ∧
    projectors w2 = projectors w1.
Proof.
  split; [reflexivity|].
  apply (clear_elements_idempotent Example.world 1 Example.projector1);
    reflexivity.
Defined.

(** X6 on the example: the slide of projector 1 is deactivated, the
    countdown stays. *)
Lemma deactivate_elements_removes_witness :
  projectors Example.world !! 1 = Some Example.projector1 ∧
  Forall (λ key, UUID_hex key = true) [Example.key2] ∧
  ∃ p' w',
    deactivate_elements 1 (JList (JStr <$> [Example.key2])) Example.world
      = (Return p', w') ∧
    config p' !! Example.key2 = None ∧
    config p' !! Example.key1 = Some Example.countdown.
Proof.
  assert (H1 : projectors Example.world !! 1 = Some Example.projector1)
    by reflexivity.
  assert (H2 : Forall (λ key, UUID_hex key = true) [Example.key2])
    by (by repeat constructor).
  assert (H3 : NoDup [Example.key2]) by evaluate.
  assert (H4 : Forall (λ key, is_Some (config Example.projector1 !! key))
                 [Example.key2])
    by (repeat constructor; by eexists).
  split_and!; [done..|].
  destruct (deactivate_elements_removes Example.world 1 Example.projector1
              [Example.key2] H1 H2 H3 H4)
    as (p' & w' & Hrun & _ & Hgone & Hkept & _); [reflexivity|].
  exists p', w'. split_and!; [done| |].
  - apply Hgone. by left.
  - rewrite Hkept; [reflexivity|]. by intros [= ]%list_elem_of_singleton.
Defined.

(** X7 on the example: the key of the countdown, twice. *)
Lemma deactivate_elements_duplicate_witness :
  projectors Example.world !! 1 = Some Example.projector1 ∧
  is_Some (config Example.projector1 !! Example.key1) ∧
  deactivate_elements 1 (JList (JStr <$> [Example.key1; Example.key1]))
    Example.world
    = (Raise invalid_uuid, Example.world).
Proof.
  split_and!; [reflexivity|by eexists|].
  apply (deactivate_elements_duplicate Example.world 1 Example.projector1
           [Example.key1; Example.key1]).
  - reflexivity.
  - by repeat constructor.
  - intros [Hnew _]%NoDup_cons. apply Hnew. by left.
Defined.

(** X8 on the example: the slide is activated on projector 2 and
    deactivated again. *)
Lemma activate_deactivate_round_trip_witness :
  projectors Example.world !! 2 = Some Example.projector2 ∧
  Forall (λ key, UUID_hex key = true) (drawn Example.world 1) ∧
  ∃ p1 w1 w2,
    activate_elements 2 (JList (JDict <$> [Example.slide])) Example.world
      = (Answer (Return p1), w1) ∧
    deactivate_elements 2 (JList (JStr <$> drawn Example.world 1)) w1
      = (Return Example.projector2, w2) ∧
    projectors w2 = projectors Example.world.
Proof.
  assert (H1 : projectors Example.world !! 2 = Some Example.projector2)
    by reflexivity.
  assert (H2 : Forall named [Example.slide]) by (by repeat constructor).
  assert (H3 : NoDup (drawn Example.world 1)) by evaluate.
  assert (H4 : Forall (absent (config Example.projector2)) (drawn Example.world 1))
    by (by repeat constructor).
  assert (H5 : Forall (λ key, UUID_hex key = true) (drawn Example.world 1))
    by (by repeat constructor).
  split_and!; [done..|].
  apply (activate_deactivate_round_trip Example.world 2 Example.projector2
           [Example.slide] H1 H2 H3 H4 H5); reflexivity.
Defined.

(** X9 on the example of the specification. *)
Lemma update_elements_idempotent_witness :
  projectors Example.world !! 2 = Some Example.projector2 ∧
  ∃ p1 w1 w2,
    update_elements 2 (JDict Example.update_request) Example.world
      = (Return p1, w1) ∧
    update_elements 2 (JDict Example.update_request) w1 = (Return p1, w2) ∧
    projectors w2 = projectors w1.
Proof.
  split; [reflexivity|].
  apply (update_elements_idempotent Example.world 2 Example.projector2
           Example.update_request); [reflexivity| |reflexivity].
  apply map_Forall_singleton. split_and!; [reflexivity|by eexists|by eexists].
Defined.

(** X10 on the example: projector 1 keeps its countdown, projector 2
    shows the slide in place of its element. *)
Lemma project_moves_witness :
  Requests.move_request !! "prune" = Some (JDict Requests.move_prune) ∧
  named Example.slide ∧
  ∃ w' p1 p2,
    project (JDict Requests.move_request) Example.world = (Return tt, w') ∧
    projectors w' !! 1 = Some p1 ∧
    config p1 = {[ Example.key1 := Example.countdown ]} ∧
    projectors w' !! 2 = Some p2 ∧
    config p2 = {[ uuid4_of_nat 0 := Example.slide ]} ∧
    scroll p2 = 0.
Proof.
  assert (H1 : Requests.move_request !! "clear_ids" = Some (JList (JInt <$> [1])))
    by reflexivity.
  assert (H2 : Requests.move_request !! "prune" = Some (JDict Requests.move_prune))
    by reflexivity.
  assert (H3 : Requests.move_prune !! "id" = Some (JInt 2)) by reflexivity.
  assert (H4 : Requests.move_prune !! "element" = Some (JDict Example.slide))
    by reflexivity.
  assert (H5 : named Example.slide) by reflexivity.
  assert (H6 : projectors Example.world !! 2 = Some Example.projector2)
    by reflexivity.
  split_and!; [done..|].
  destruct (project_moves Example.world Requests.move_request
              Requests.move_prune [1] 2 Example.projector2 Example.slide
              H1 H2 H3 H4 H5 H6)
    as (w' & Hrun & Htarget & Hcleared & _); [reflexivity..|].
  eexists w', _, _. split_and!; [exact Hrun| | |exact Htarget| |].
  - apply (Hcleared 1 Example.projector1); [by left|done|reflexivity].
  - by vm_compute.
  - by vm_compute.
  - reflexivity.
Defined.

(** X11 on the example: projectors 7 and 8 do not exist. *)
Lemma project_skips_missing_witness :
  projectors Example.world !! 7 = None ∧
  projectors Example.world !! 8 = None ∧
  project (JDict Requests.ghost_request) Example.world
    = (Return tt, Example.world).
Proof.
  split_and!; [reflexivity..|].
  apply (project_skips_missing Example.world Requests.ghost_request [7; 8]);
    [reflexivity..|].
  intros id [->|[->|[]%elem_of_nil]%elem_of_cons]%elem_of_cons; reflexivity.
Defined.

(** X12 on the example: 1280x720 is taken, on projector 1. *)
Lemma set_resolution_bounds_witness :
  ∃ detail w',
    set_resolution 1 (JDict Requests.resolution) Example.world
      = (Return detail, w') ∧
    projectors w' !! 1
      = Some (set_height 720 (set_width 1280 Example.projector1)).
Proof.
  destruct (set_resolution_bounds Example.world 1) as [Hsets _].
  destruct (Hsets Requests.resolution Example.projector1 1280 720)
    as (detail & w' & Hrun & Hw'); [reflexivity..|lia|lia|].
  exists detail, w'. split; [done|]. rewrite Hw'. apply lookup_insert_eq.
Defined.

(** X14 on the example: projector 1 scrolls from 5 to 6. *)
Lemma control_view_moves_witness :
  projectors Example.world !! 1 = Some Example.projector1 ∧
  ∃ w' p',
    control_view 1 (control "scroll" "up") Example.world
      = (Return "('Scroll',) ('up',) was successful.", w') ∧
    projectors w' !! 1 = Some p' ∧
    scroll p' = 6 ∧ scale p' = 0 ∧ config p' = config Example.projector1.
Proof.
  assert (H1 : projectors Example.world !! 1 = Some Example.projector1)
    by reflexivity.
  assert (H2 : "scroll" ∈ ["scale"; "scroll"]) by evaluate.
  assert (H3 : "up" ∈ ["up"; "down"; "reset"]) by evaluate.
  split; [done|].
  destruct (control_view_moves Example.world 1 Example.projector1
              "scroll" "up" H1 H2 H3)
    as (w' & p' & Hrun & Hw' & _ & Hc & _ & _ & _ & _ & Hscroll).
  destruct (Hscroll eq_refl) as [Hs Hscale].
  exists w', p'. split_and!; [done| |done..].
  rewrite Hw'. apply lookup_insert_eq.
Defined.

(** X15 on the example. *)
Lemma control_view_up_down_witness :
  projectors Example.world !! 1 = Some Example.projector1 ∧
  ∃ d1 w1 d2 w2,
    control_view 1 (control "scale" "up") Example.world = (Return d1, w1) ∧
    control_view 1 (control "scale" "down") w1 = (Return d2, w2) ∧
    projectors w2 = projectors Example.world.
Proof.
  assert (H1 : projectors Example.world !! 1 = Some Example.projector1)
    by reflexivity.
  assert (H2 : "scale" ∈ ["scale"; "scroll"]) by evaluate.
  split; [done|].
  by destruct (control_view_up_down Example.world 1 Example.projector1
                 "scale" H1 H2) as [Hup _].
Defined.

(** X16 on the example. *)
Lemma scroll_takes_bool_blank_no_int_witness :
  projectors Example.world !! 1 = Some Example.projector1 ∧
  (∃ detail w',
     set_scroll_view 1 (JBool true) Example.world = (Return detail, w') ∧
     scroll <$> projectors w' !! 1 = Some 1) ∧
  control_blank 1 (JInt 1) Example.world
    = (Raise (ValidationError "Data must be a bool."), Example.world).
Proof.
  assert (H1 : projectors Example.world !! 1 = Some Example.projector1)
    by reflexivity.
  destruct (scroll_takes_bool_blank_no_int Example.world 1 Example.projector1
              true 1 H1) as [(detail & w' & Hrun & Hw') Hblank].
  split_and!; [done| |done].
  exists detail, w'. split; [done|]. by rewrite Hw', lookup_insert_eq.
Defined.

(** X17 on the example: projector 1 is made the broadcast projector,
    and the request of projector 2 switches broadcasting off. *)
Lemma broadcast_switches_witness :
  projector_broadcast Requests.quiet = 0 ∧
  ∃ d1 w1 d2 w2,
    broadcast 1 Requests.quiet = (Return d1, w1) ∧
    projector_broadcast w1 = 1 ∧
    broadcast 2 w1 = (Return d2, w2) ∧
    projector_broadcast w2 = 0.
Proof.
  split; [reflexivity|].
  destruct (broadcast_switches Requests.quiet 1 2)
    as (d1 & w1 & d2 & w2 & Hrun1 & Hb1 & Hrun2 & Hb2 & _); [reflexivity|lia|].
  by exists d1, w1, d2, w2.
Defined.

(** X18 on the example: there is no projector 9. *)
Lemma broadcast_unchecked_witness :
  projectors Requests.quiet !! 9 = None ∧
  broadcast_valid Requests.quiet ∧
  ∃ detail w',
    broadcast 9 Requests.quiet = (Return detail, w') ∧
    projector_broadcast w' = 9 ∧
    ¬ broadcast_valid w'.
Proof.
  split_and!; [reflexivity|by left|].
  apply (broadcast_unchecked Requests.quiet 9); [reflexivity..|lia].
Defined.

(** X19 on the example: projector 2, the broadcast projector, is
    destroyed. *)
Lemma destroy_keeps_references_witness :
  broadcast_valid Example.world ∧
  defaults_valid Example.world ∧
  ∃ w',
    destroy 2 Example.world = (Return tt, w') ∧
    broadcast_valid w' ∧ defaults_valid w'.
Proof.
  assert (H1 : broadcast_valid Example.world) by (right; by eexists).
  assert (H2 : defaults_valid Example.world).
  { change (map_Forall
              (λ _ d, is_Some (projectors Example.world !! projector_id d))
              (projectiondefaults Example.world)).
    evaluate. }
  split_and!; [done..|].
  apply (destroy_keeps_references Example.world 2 Example.projector2);
    [reflexivity|lia|by eexists|done..].
Defined.


(** X21 on the example: the participants go to projector 1. *)
Lemma set_projectiondefault_moves_witness :
  projector_id <$> projectiondefaults Example.world !! 3 = Some 2 ∧
  ∃ detail w',
    set_projectiondefault 1 (JInt 3) Example.world = (Return detail, w') ∧
    projector_id <$> projectiondefaults w' !! 3 = Some 1.
Proof.
  split; [reflexivity|].
  destruct (set_projectiondefault_moves Example.world 1 3 Example.projector1
              (mkProjectionDefault "users" "Participants" 2) (JInt 3))
    as (detail & w' & Hrun & Hw' & _); [reflexivity..|].
  exists detail, w'. split; [done|]. by rewrite Hw', lookup_insert_eq.
Defined.

(** X22 on the example: neither projection default 9 nor projector 9
    exists, and the answer names the projection default. *)
Lemma set_projectiondefault_error_order_witness :
  projectiondefaults Example.world !! 9 = None ∧
  projectors Example.world !! 9 = None ∧
  set_projectiondefault 9 (JInt 9) Example.world
    = (Raise (ValidationError
                "The projectiondefault with pk=9 was not found."),
       Example.world) ∧
  set_projectiondefault 9 (JInt 1) Example.world
    = (Raise Http404, Example.world).
Proof.
  split_and!; [reflexivity..| |].
  - destruct (set_projectiondefault_error_order Example.world 9 9 (JInt 9))
      as [Hmissing _]; [reflexivity|].
    by rewrite Hmissing.
  - destruct (set_projectiondefault_error_order Example.world 9 1 (JInt 1))
      as [_ Hgone]; [reflexivity|].
    apply Hgone; [by eexists|reflexivity].
Defined.

(** X23 on the example: a manager may project. *)
Lemma projector_permissions_witness :
  ProjectorViewSet.check_view_permissions Requests.manager false "project"
    = true ∧
  Requests.manager "core.can_see_projector" = true ∧
  Requests.manager "core.can_manage_projector" = true.
Proof.
  assert (H1 : "project" ∉ ["list"; "retrieve"]) by evaluate.
  assert (H2 : ProjectorViewSet.check_view_permissions Requests.manager false
                 "project" = true) by reflexivity.
  destruct (projector_permissions Requests.manager false "project" H1 H2)
    as [Hsee Hmanage].
  split_and!; [done..|]. by apply Hmanage.
Defined.

(** X24 on the example: a manager with access to everything may not
    do what no viewset lists. *)
Lemma unlisted_action_refused_witness :
  ("delete_all" ∉ known_actions) ∧
  ProjectorViewSet.check_view_permissions Requests.manager true "delete_all"
    = false ∧
  HistoryViewSet.check_view_permissions true "delete_all" = false.
Proof.
  assert (H1 : "delete_all" ∉ known_actions) by evaluate.
  destruct (unlisted_action_refused Requests.manager true true true
              "delete_all" "1" H1) as (Hp & _ & _ & _ & _ & _ & Hh).
  by split_and!.
Defined.

(** X25 on the example: who may change the config may not change the
    logo of the projector. *)
Lemma config_permission_by_prefix_witness :
  Requests.config_manager "core.can_manage_config" = true ∧
  ConfigViewSet.check_view_permissions Requests.config_manager true true true
    "update" "logo_projector_main" = false.
Proof.
  split; [reflexivity|].
  rewrite (config_permission_by_prefix Requests.config_manager true true true
             "update" "logo_projector_main" "_projector_main").
  - reflexivity.
  - evaluate.
  - by left.
Defined.

(** X26 on the example: the anonymous user of a group with both
    permissions of the chat. *)
Lemma chat_permissions_anonymous_witness :
  ChatMessageViewSet.check_view_permissions Requests.chatter true false
    "create" = false ∧
  ChatMessageViewSet.check_view_permissions Requests.chatter true false
    "clear" = true.
Proof.
  destruct (chat_permissions_anonymous Requests.chatter true false eq_refl)
    as [Hcreate Hclear].
  split; [done|]. by rewrite Hclear.
Defined.
